(** * etymgroup2: year and etymology extraction for a word table

    A shallow embedding of [etymgroup2.py].  The script reads a CSV table,
    fetches the Merriam-Webster page of the word in the third column of
    every row, extracts the year of first known use and the etymology
    from the parsed page, and writes the row back with three more
    columns.

    Python [str] values are modelled as [string]: a sequence of code
    points in the range U+0000..U+00FF, one [ascii] per code point.  The
    character classes below are Python's classes on that range. *)

From Stdlib Require Import Bool Arith ZArith NArith List Ascii String Lia.
Import ListNotations.

Local Open Scope string_scope.
Local Open Scope Z_scope.

Set Implicit Arguments.

(* ===================================================================== *)
(** ** Python strings *)
(* ===================================================================== *)

Module Py.

Definition chars (s : string) : list ascii := list_ascii_of_string s.
Definition str (l : list ascii) : string := string_of_list_ascii l.

Definition code (c : ascii) : N := N_of_ascii c.

Definition between (lo hi : N) (c : ascii) : bool :=
  ((lo <=? code c) && (code c <=? hi))%N.

(** [str.isdecimal]: the digits [0]..[9]. *)
Definition isdecimal (c : ascii) : bool := between 48 57 c.

(** [str.isalpha] on U+0000..U+00FF: the ASCII letters, the ordinal
    indicators U+00AA and U+00BA, the micro sign U+00B5, and the
    letters U+00C0..U+00FF without the signs U+00D7 and U+00F7. *)
Definition isalpha (c : ascii) : bool :=
  between 65 90 c || between 97 122 c
  || between 170 170 c || between 181 181 c || between 186 186 c
  || between 192 214 c || between 216 246 c || between 248 255 c.

(** [str.isalnum]: alphabetic, decimal, digit or numeric; on this range
    the last two add the superscripts U+00B2, U+00B3, U+00B9 and the
    fractions U+00BC..U+00BE. *)
Definition isalnum (c : ascii) : bool :=
  isalpha c || isdecimal c
  || between 178 179 c || between 185 185 c || between 188 190 c.

(** [str.isspace]: TAB..CR, FS..US, space, NEL and the no-break space. *)
Definition isspace (c : ascii) : bool :=
  between 9 13 c || between 28 32 c || between 133 133 c || between 160 160 c.

(** [str.lower], one code point: [A]..[Z] and U+00C0..U+00DE (without
    U+00D7) move up by 32. *)
Definition lower_char (c : ascii) : ascii :=
  if between 65 90 c || between 192 214 c || between 216 222 c
  then ascii_of_N (code c + 32) else c.

Definition lower (s : string) : string := str (map lower_char (chars s)).

(** [sub in s] *)
Fixpoint starts_with (sub s : list ascii) : bool :=
  match sub, s with
  | [], _ => true
  | _ :: _, [] => false
  | a :: sub', b :: s' => Ascii.eqb a b && starts_with sub' s'
  end.

Fixpoint contains_chars (sub s : list ascii) : bool :=
  starts_with sub s ||
  match s with
  | [] => false
  | _ :: s' => contains_chars sub s'
  end.

Definition contains (sub s : string) : bool :=
  contains_chars (chars sub) (chars s).

(** [sep.join(items)] *)
Definition join (sep : string) (items : list string) : string :=
  String.concat sep items.

(** [s.strip()] *)
Fixpoint lstrip_chars (s : list ascii) : list ascii :=
  match s with
  | c :: s' => if isspace c then lstrip_chars s' else s
  | [] => []
  end.

Definition strip_chars (s : list ascii) : list ascii :=
  rev (lstrip_chars (rev (lstrip_chars s))).

Definition strip (s : string) : string := str (strip_chars (chars s)).

(** Truth value of a string: the empty string is falsy. *)
Definition truthy (s : string) : bool :=
  match s with EmptyString => false | String _ _ => true end.

(** Value of a decimal digit and of a run of decimal digits. *)
Definition digit_value (c : ascii) : Z := Z.of_N (code c) - 48.

Definition digits_value (ds : list ascii) : Z :=
  fold_left (fun acc c => 10 * acc + digit_value c) ds 0.

End Py.

(* ===================================================================== *)
(** ** [classify_by_year] *)
(* ===================================================================== *)

(** [[
    def classify_by_year(year):
        if year >= 1800:
            return "modern english"
        elif year > 1450 and year < 1800:
            return "early modern english"
        else:
            return "unknown"
    ]] *)
Definition classify_by_year (year : Z) : string :=
  if year >=? 1800 then "modern english"
  else if (year >? 1450) && (year <? 1800) then "early modern english"
  else "unknown".

(* ===================================================================== *)
(** ** The fragment of [re] the script uses *)
(* ===================================================================== *)

Module Re.

(** Pattern syntax.  Both patterns of the script have one capturing
    group, so a match records group 1 only. *)
Inductive regex : Type :=
| Eps
| Class (p : ascii -> bool)                       (* \d, \s *)
| Lit (c : ascii)                                 (* a literal character *)
| WordBoundary                                    (* \b *)
| Seq (r1 r2 : regex)
| Alt (r1 r2 : regex)                             (* r1|r2 *)
| Repeat (lo : nat) (hi : option nat) (r : regex) (* greedy {lo,hi}; + is {1,} *)
| Group (r : regex).                              (* ( r ), group 1 *)

(** A position in the text: the character before it (if any), the text
    from it on, and what group 1 has captured so far. *)
Record cursor : Type := Cursor {
  before : option ascii;
  rest : list ascii;
  group1 : option (list ascii)
}.

(** [\w]: alphanumeric or underscore. *)
Definition is_word (c : ascii) : bool := Py.isalnum c || Ascii.eqb c "_".

Definition word_opt (c : option ascii) : bool :=
  match c with Some c => is_word c | None => false end.

(** [\b] holds where exactly one side is a word character; the ends of
    the text count as non-word. *)
Definition at_boundary (cur : cursor) : bool :=
  xorb (word_opt (before cur)) (word_opt (hd_error (rest cur))).

(** Literal comparison, under [re.IGNORECASE] when [ic] is set. *)
Definition char_eq (ic : bool) (a b : ascii) : bool :=
  if ic then Ascii.eqb (Py.lower_char a) (Py.lower_char b) else Ascii.eqb a b.

Definition cont : Type := cursor -> option cursor.

(** Consume one character satisfying [p]. *)
Definition step (p : ascii -> bool) (k : cont) (cur : cursor) : option cursor :=
  match rest cur with
  | c :: s => if p c then k (Cursor (Some c) s (group1 cur)) else None
  | [] => None
  end.

(** [n] mandatory iterations of [body]. *)
Fixpoint at_least (body : cont -> cont) (n : nat) (k : cont) : cont :=
  match n with
  | O => k
  | S n' => body (at_least body n' k)
  end.

(** Up to [n] further iterations, greedy: one more iteration is tried
    before the continuation. *)
Fixpoint at_most (body : cont -> cont) (n : nat) (k : cont) (cur : cursor)
  : option cursor :=
  match n with
  | O => k cur
  | S n' =>
      match body (at_most body n' k) cur with
      | Some m => Some m
      | None => k cur
      end
  end.

(** Backtracking matcher in continuation-passing style: [exec ic r k cur]
    is the first way, in the engine's priority order (the left branch of
    an alternation first, one more iteration of a repeat first), of
    matching [r] at [cur] such that [k] accepts the position after it.
    An unbounded repeat is cut at the length of the remaining text; the
    bodies repeated here consume a character per iteration. *)
Fixpoint exec (ic : bool) (r : regex) (k : cont) (cur : cursor) {struct r}
  : option cursor :=
  match r with
  | Eps => k cur
  | Class p => step p k cur
  | Lit c => step (char_eq ic c) k cur
  | WordBoundary => if at_boundary cur then k cur else None
  | Seq r1 r2 => exec ic r1 (exec ic r2 k) cur
  | Alt r1 r2 =>
      match exec ic r1 k cur with
      | Some m => Some m
      | None => exec ic r2 k cur
      end
  | Repeat lo hi r' =>
      let extra := match hi with
                   | Some h => (h - lo)%nat
                   | None => List.length (rest cur)
                   end in
      at_least (exec ic r') lo (at_most (exec ic r') extra k) cur
  | Group r' =>
      exec ic r'
        (fun cur' =>
           k (Cursor (before cur') (rest cur')
                (Some (firstn (List.length (rest cur) - List.length (rest cur'))
                         (rest cur)))))
        cur
  end.

(** [re.search]: the match at the leftmost position that has one. *)
Fixpoint search_from (ic : bool) (r : regex) (prev : option ascii)
    (s : list ascii) : option cursor :=
  match exec ic r Some (Cursor prev s None) with
  | Some m => Some m
  | None =>
      match s with
      | [] => None
      | c :: s' => search_from ic r (Some c) s'
      end
  end.

Definition search (ic : bool) (r : regex) (text : string) : option cursor :=
  search_from ic r None (Py.chars text).

Fixpoint literal (w : list ascii) : regex :=
  match w with
  | [] => Eps
  | c :: w' => Seq (Lit c) (literal w')
  end.

Definition lit (w : string) : regex := literal (Py.chars w).
Definition digit : regex := Class Py.isdecimal.
Definition space : regex := Class Py.isspace.

(** [r'\b(\d{3,4})\b'] *)
Definition year_re : regex :=
  Seq WordBoundary (Seq (Group (Repeat 3 (Some 4%nat) digit)) WordBoundary).

(** [(?:st|nd|rd|th)] *)
Definition suffix_re : regex :=
  Alt (lit "st") (Alt (lit "nd") (Alt (lit "rd") (lit "th"))).

(** [r'\b(\d{1,2})(?:st|nd|rd|th)\s+century\b'] *)
Definition century_re : regex :=
  Seq WordBoundary
    (Seq (Group (Repeat 1 (Some 2%nat) digit))
       (Seq suffix_re
          (Seq (Repeat 1 None space)
             (Seq (lit "century") WordBoundary)))).

End Re.

(* ===================================================================== *)
(** ** The fragment of BeautifulSoup the script uses *)
(* ===================================================================== *)

Module Bs4.

(** A parsed page.  A tag carries its name, its [class] attribute (absent,
    or the list of its whitespace-separated tokens) and its children.
    [NavigableString] and [CData] are the strings [get_text] collects;
    [Comment] stands for every string class it skips. *)
#[warnings="-register-all"]
Inductive node : Type :=
| Tag (name : string) (class_ : option (list string)) (contents : list node)
| NavigableString (s : string)
| CData (s : string)
| Comment (s : string).

(** [tag.descendants]: the nodes below a tag, in document order. *)
Fixpoint descendants (n : node) : list node :=
  match n with
  | Tag _ _ contents => flat_map (fun c => c :: descendants c) contents
  | _ => []
  end.

(** The value given as [class_]: a function, or a string. *)
Inductive class_filter : Type :=
| ByFunction (f : option string -> bool)
| ByString (s : string).

(** One value against the filter.  A function is called on the value; a
    string matches an equal string and never matches a missing value. *)
Definition matches_value (v : option string) (m : class_filter) : bool :=
  match m with
  | ByFunction f => f v
  | ByString s =>
      match v with
      | Some x => String.eqb x s
      | None => false
      end
  end.

(** The [class] attribute against the filter: some token matches, or
    the tokens joined by a space match. *)
Definition matches_class (attr : option (list string)) (m : class_filter)
  : bool :=
  match attr with
  | None => matches_value None m
  | Some tokens =>
      existsb (fun t => matches_value (Some t) m) tokens
      || matches_value (Some (Py.join " " tokens)) m
  end.

Definition matches_tag (name : string) (m : class_filter) (n : node) : bool :=
  match n with
  | Tag nm cls _ => String.eqb nm name && matches_class cls m
  | _ => false
  end.

(** [tag.find(name, class_=m)]: the first matching descendant. *)
Definition find (n : node) (name : string) (m : class_filter) : option node :=
  List.find (matches_tag name m) (descendants n).

Definition strings (n : node) : list string :=
  flat_map (fun d => match d with
                     | NavigableString s | CData s => [s]
                     | _ => []
                     end)
    (descendants n).

(** [tag.get_text()] *)
Definition get_text (n : node) : string := Py.join "" (strings n).

(** [tag.get_text(separator=sep, strip=True)] *)
Definition get_text_strip (sep : string) (n : node) : string :=
  Py.join sep (filter Py.truthy (map Py.strip (strings n))).

End Bs4.

(* ===================================================================== *)
(** ** Effects: output streams, the output table, the network *)
(* ===================================================================== *)

(** What [requests] raises: a transport failure of [requests.get]
    (connection error, timeout, ...) with its text, or the [HTTPError] of
    [raise_for_status] with the status code.  Both are
    [RequestException]s. *)
Inductive request_exception : Type :=
| Transport (e : string)
| HTTPError (status_code : Z).

Inductive exn : Type :=
| RequestException (e : request_exception)
| StopIteration
| IndexError
| TypeError
| ValueError.

(** One line printed by the script, with the values interpolated in it. *)
Inductive message : Type :=
| Error_fetching (word : string) (e : request_exception)
    (* f"Error fetching {word}: {e}" *)
| No_year_found (word : string)
    (* f"No year found for {word}" *)
| Found_century (word : string) (century_num year : Z)
    (* f"Found century for {word}: {century_num}th century -> {year}" *)
| Skipping_malformed_row (row : list string)
    (* f"Skipping malformed row: {row}" *)
| Processing (word : string)
    (* f"Processing: {word}" *)
| Processing_complete (output : string).
    (* f"\nProcessing complete. Output written to {OUTPUT}" *)

(** A value handed to [csv.writer.writerow]. *)
Inductive cell : Type :=
| Str (s : string)
| Int (z : Z)
| Boolean (b : bool).

Record response : Type := Response {
  status_code : Z;
  text : string
}.

Record world : Type := World {
  stdout : list message;
  stderr : list message;
  outfile : list (list cell);   (* the rows of OUTPUT, in the order written *)
  requests_sent : nat           (* how many requests have been made *)
}.

(** A computation: from a state of the world to a value or a raised
    exception, and the state after it. *)
Definition M (A : Type) : Type := world -> (exn + A) * world.

Definition ret {A} (a : A) : M A := fun w => (inr a, w).

Definition bind {A B} (m : M A) (f : A -> M B) : M B :=
  fun w =>
    match m w with
    | (inr a, w') => f a w'
    | (inl e, w') => (inl e, w')
    end.

Definition raise {A} (e : exn) : M A := fun w => (inl e, w).

(** [try: body / except ...: handler]; [handler e] is [None] when the
    [except] clause does not catch [e]. *)
Definition try_except {A} (body : M A) (handler : exn -> option (M A)) : M A :=
  fun w =>
    match body w with
    | (inl e, w') =>
        match handler e with
        | Some h => h w'
        | None => (inl e, w')
        end
    | r => r
    end.

Declare Scope monad_scope.
Delimit Scope monad_scope with monad.
Notation "x <- m ;; k" := (bind m (fun x => k))
  (at level 61, m at next level, right associativity) : monad_scope.
Notation "' pat <- m ;; k" := (bind m (fun x => match x with pat => k end))
  (at level 61, pat pattern, m at next level, right associativity) : monad_scope.
Notation "m ;; k" := (bind m (fun _ => k))
  (at level 61, right associativity) : monad_scope.
Local Open Scope monad_scope.

Definition value {A} (r : (exn + A) * world) : exn + A := fst r.
Definition after {A} (r : (exn + A) * world) : world := snd r.

(** [print(msg)] and [print(msg, file=sys.stderr)] *)
Definition print (msg : message) : M unit :=
  fun w => (inr tt, World (stdout w ++ [msg]) (stderr w) (outfile w) (requests_sent w)).

Definition print_err (msg : message) : M unit :=
  fun w => (inr tt, World (stdout w) (stderr w ++ [msg]) (outfile w) (requests_sent w)).

(** [open(OUTPUT, 'w')] truncates the file; [writer.writerow] appends. *)
Definition open_w : M unit :=
  fun w => (inr tt, World (stdout w) (stderr w) [] (requests_sent w)).

Definition writerow (row : list cell) : M unit :=
  fun w => (inr tt, World (stdout w) (stderr w) (outfile w ++ [row]) (requests_sent w)).

(** [int(s)], restricted to non-empty strings of decimal digits, which is
    all the patterns capture.  The model reports every other string as a
    [ValueError], also those Python accepts (signs, surrounding
    whitespace, underscores). *)
Definition int (s : list ascii) : M Z :=
  match s with
  | [] => raise ValueError
  | _ :: _ => if forallb Py.isdecimal s then ret (Py.digits_value s)
              else raise ValueError
  end.

(** [m.group(1)]; [int(None)] is a [TypeError]. *)
Definition int_group1 (m : Re.cursor) : M Z :=
  match Re.group1 m with
  | Some s => int s
  | None => raise TypeError
  end.

(** [response.raise_for_status()] *)
Definition raise_for_status (r : response) : M unit :=
  if (400 <=? status_code r) && (status_code r <? 600)
  then raise (RequestException (HTTPError (status_code r)))
  else ret tt.

Definition INPUT : string := "./wordle_tables_clean.csv".
Definition OUTPUT : string := "tables_with_new_data.csv".

(* ===================================================================== *)
(** ** The script *)
(* ===================================================================== *)

(** [[
    def extract_year(soup, word):
        first_known_div = soup.find('div', class_=lambda x: x and 'first-known-content-section' in x)
        if not first_known_div:
            print(f"No year found for {word}", file=sys.stderr)
            return -1, False
        year_p = first_known_div.find('p', class_=lambda x: x and 'ety-sl' in x and 'pb-3' in x)
        if not year_p:
            print(f"No year found for {word}", file=sys.stderr)
            return -1, False
        text = year_p.get_text()
        year_match = re.search(r'\b(\d{3,4})\b', text)
        if year_match:
            return int(year_match.group(1)), True
        century_match = re.search(r'\b(\d{1,2})(?:st|nd|rd|th)\s+century\b', text, re.IGNORECASE)
        if century_match:
            century_num = int(century_match.group(1))
            year = (century_num - 1) * 100
            print(f"Found century for {word}: {century_num}th century -> {year}", file=sys.stderr)
            return year, False
        print(f"No year found for {word}", file=sys.stderr)
        return -1, False
    ]] *)
Definition extract_year (soup : Bs4.node) (word : string) : M (Z * bool) :=
  let first_known_div :=
    Bs4.find soup "div"
      (Bs4.ByFunction (fun x =>
         match x with
         | Some x => Py.truthy x && Py.contains "first-known-content-section" x
         | None => false
         end)) in
  match first_known_div with
  | None =>
      print_err (No_year_found word) ;;
      ret (-1, false)
  | Some first_known_div =>
      let year_p :=
        Bs4.find first_known_div "p"
          (Bs4.ByFunction (fun x =>
             match x with
             | Some x => Py.truthy x && Py.contains "ety-sl" x && Py.contains "pb-3" x
             | None => false
             end)) in
      match year_p with
      | None =>
          print_err (No_year_found word) ;;
          ret (-1, false)
      | Some year_p =>
          let text := Bs4.get_text year_p in
          let year_match := Re.search false Re.year_re text in
          match year_match with
          | Some year_match =>
              year <- int_group1 year_match ;;
              ret (year, true)
          | None =>
              let century_match := Re.search true Re.century_re text in
              match century_match with
              | Some century_match =>
                  century_num <- int_group1 century_match ;;
                  let year := (century_num - 1) * 100 in
                  print_err (Found_century word century_num year) ;;
                  ret (year, false)
              | None =>
                  print_err (No_year_found word) ;;
                  ret (-1, false)
              end
          end
      end
  end.

(** [[
    def extract_etymology(soup, year):
        etym_div = soup.find('div', class_=lambda x: x and 'etymology-content-section' in x)
        if not etym_div:
            return classify_by_year(year)
        etym_p = etym_div.find('p', class_='et')
        if not etym_p:
            return classify_by_year(year)
        etym_text = etym_p.get_text(separator=' ', strip=True)
        if etym_text:
            return etym_text
        else:
            return classify_by_year(year)
    ]] *)
Definition extract_etymology (soup : Bs4.node) (year : Z) : string :=
  let etym_div :=
    Bs4.find soup "div"
      (Bs4.ByFunction (fun x =>
         match x with
         | Some x => Py.truthy x && Py.contains "etymology-content-section" x
         | None => false
         end)) in
  match etym_div with
  | None => classify_by_year year
  | Some etym_div =>
      let etym_p := Bs4.find etym_div "p" (Bs4.ByString "et") in
      match etym_p with
      | None => classify_by_year year
      | Some etym_p =>
          let etym_text := Bs4.get_text_strip " " etym_p in
          if Py.truthy etym_text then etym_text
          else classify_by_year year
      end
  end.

Section Script.

(** The network: what the [n]-th request of the run, to [url] with the
    given timeout, comes back with -- the text of a transport failure,
    or a response. *)
Variable network : nat -> string -> Z -> string + response.

(** [BeautifulSoup(markup, 'html.parser')], for the markup it accepts.
    The call stands outside the [try] of [fetch_word_data]: an exception
    of the parser would leave [fetch_word_data] and [main] at that line.
    This is not modelled; what follows describes the runs in which the
    parser returns a tree. *)
Variable html_parser : string -> Bs4.node.

(** [requests.get(url, timeout=timeout)].  [requests_sent] counts the calls
    of [requests.get], not the HTTP requests a call sends: a call that
    follows redirects sends several. *)
Definition requests_get (url : string) (timeout : Z) : M response :=
  fun w =>
    let w' := World (stdout w) (stderr w) (outfile w) (S (requests_sent w)) in
    match network (requests_sent w) url timeout with
    | inl e => (inl (RequestException (Transport e)), w')
    | inr r => (inr r, w')
    end.

(** [[
    def fetch_word_data(word):
        word = word.lower()
        url = f"https://www.merriam-webster.com/dictionary/{word}"
        try:
            response = requests.get(url, timeout=10)
            response.raise_for_status()
        except requests.RequestException as e:
            print(f"Error fetching {word}: {e}", file=sys.stderr)
            return -1, "unknown", False
        soup = BeautifulSoup(response.text, 'html.parser')
        year, is_accurate = extract_year(soup, word)
        etym = extract_etymology(soup, year)
        return year, etym, is_accurate
    ]]
    The [return] of the [except] clause leaves the function: the [try]
    statement yields either that early result or the response. *)
Definition fetch_word_data (word : string) : M (Z * string * bool) :=
  let word := Py.lower word in
  let url := "https://www.merriam-webster.com/dictionary/" ++ word in
  fetched <-
    try_except
      (response <- requests_get url 10 ;;
       raise_for_status response ;;
       ret (inr response))
      (fun e =>
         match e with
         | RequestException e =>
             Some (print_err (Error_fetching word e) ;;
                   ret (inl (-1, "unknown", false)))
         | _ => None
         end) ;;
  match fetched with
  | inl early => ret early
  | inr response =>
      let soup := html_parser (text response) in
      '(year, is_accurate) <- extract_year soup word ;;
      let etym := extract_etymology soup year in
      ret (year, etym, is_accurate)
  end.

(** [[
    def main():
        with open(INPUT, 'r', encoding='utf-8') as infile, \
             open(OUTPUT, 'w', encoding='utf-8', newline='') as outfile:
            reader = csv.reader(infile)
            writer = csv.writer(outfile)
            header = next(reader)
            writer.writerow(header + ['year_used', 'etym', 'year_accurate'])
            for row in reader:
                if len(row) < 3:
                    print(f"Skipping malformed row: {row}", file=sys.stderr)
                    continue
                word = row[2]
                print(f"Processing: {word}")
                year, etym, is_accurate = fetch_word_data(word)
                writer.writerow(row + [year, etym, is_accurate])
        print(f"\nProcessing complete. Output written to {OUTPUT}")
    ]] *)

(** The body of [for row in reader:]. *)
Definition process_row (row : list string) : M unit :=
  if (List.length row <? 3)%nat then
    print_err (Skipping_malformed_row row)          (* continue *)
  else
    word <- match nth_error row 2 with
            | Some word => ret word
            | None => raise IndexError
            end ;;
    print (Processing word) ;;
    '(year, etym, is_accurate) <- fetch_word_data word ;;
    writerow (map Str row ++ [Int year; Str etym; Boolean is_accurate]).

Fixpoint for_rows (reader : list (list string)) : M unit :=
  match reader with
  | [] => ret tt
  | row :: reader' => process_row row ;; for_rows reader'
  end.

(** [main], on the rows [csv.reader] yields for INPUT.  [next(reader)] on
    an empty table raises [StopIteration]. *)
Definition main (reader : list (list string)) : M unit :=
  open_w ;;
  match reader with
  | [] => raise StopIteration
  | header :: reader' =>
      writerow (map Str header ++ [Str "year_used"; Str "etym"; Str "year_accurate"]) ;;
      for_rows reader' ;;
      print (Processing_complete OUTPUT)
  end.

End Script.

(* ===================================================================== *)
(** ** What a pattern matches *)
(* ===================================================================== *)

Local Open Scope list_scope.

(** The matcher above fixes an order of search.  The relation below says
    only which spans a pattern can match; the matcher is shown sound and
    complete for it further down. *)
Module ReSpec.
Import Re.

(** The last character of [xs], or [prev] when [xs] is empty. *)
Definition last_char (prev : option ascii) (xs : list ascii) : option ascii :=
  fold_left (fun _ c => Some c) xs prev.

(** From [a], reading [xs] leads to [b]. *)
Definition reads (a : cursor) (xs : list ascii) (b : cursor) : Prop :=
  rest a = xs ++ rest b /\
  before b = last_char (before a) xs /\
  group1 b = group1 a.

Fixpoint iter (m : cursor -> cursor -> Prop) (n : nat) (a b : cursor) : Prop :=
  match n with
  | O => a = b
  | S n' => exists mid, m a mid /\ iter m n' mid b
  end.

Definition one (p : ascii -> bool) (a b : cursor) : Prop :=
  exists c, p c = true /\ reads a [c] b.

Fixpoint matches (ic : bool) (r : regex) (a b : cursor) {struct r} : Prop :=
  match r with
  | Eps => a = b
  | Class p => one p a b
  | Lit c => one (char_eq ic c) a b
  | WordBoundary => at_boundary a = true /\ a = b
  | Seq r1 r2 => exists mid, matches ic r1 a mid /\ matches ic r2 mid b
  | Alt r1 r2 => matches ic r1 a b \/ matches ic r2 a b
  | Repeat lo hi r' =>
      exists n, (lo <= n)%nat /\
                match hi with Some h => (n <= h)%nat | None => True end /\
                iter (matches ic r') n a b
  | Group r' =>
      exists b', matches ic r' a b' /\
                 b = Cursor (before b') (rest b')
                       (Some (firstn (List.length (rest a) - List.length (rest b'))
                                (rest a)))
  end.

(** Every match of [r] reads at least one character. *)
Fixpoint consuming (r : regex) : bool :=
  match r with
  | Class _ | Lit _ => true
  | Seq r1 r2 => consuming r1 || consuming r2
  | Alt r1 r2 => consuming r1 && consuming r2
  | Repeat lo _ r' => (0 <? lo)%nat && consuming r'
  | Group r' => consuming r'
  | Eps | WordBoundary => false
  end.

(** The patterns [re.compile] accepts and [exec] handles in full: the
    bounds of a repeat are in order, and an unbounded repeat has a
    consuming body, so that the cut at the length of the text loses
    nothing. *)
Fixpoint well_formed (r : regex) : bool :=
  match r with
  | Seq r1 r2 | Alt r1 r2 => well_formed r1 && well_formed r2
  | Repeat _ None r' => consuming r' && well_formed r'
  | Repeat lo (Some h) r' => (lo <=? h)%nat && well_formed r'
  | Group r' => well_formed r'
  | _ => true
  end.

(** The position of a text [pre ++ s] after [pre]. *)
Definition position (pre s : list ascii) : cursor :=
  Cursor (last_char None pre) s None.

(** A matcher in continuation-passing style is sound for a relation when
    each of its results comes from a related position that the
    continuation accepts, and complete when it finds a result wherever
    there is such a position. *)
Definition sound_body (body : cont -> cont) (m : cursor -> cursor -> Prop) : Prop :=
  forall k a res, body k a = Some res -> exists b, m a b /\ k b = Some res.

Definition complete_body (body : cont -> cont) (m : cursor -> cursor -> Prop) : Prop :=
  forall k a b res, m a b -> k b = Some res -> exists res', body k a = Some res'.

End ReSpec.

(* ===================================================================== *)
(** ** The vocabulary of the specification *)
(* ===================================================================== *)

Definition all_digits (ds : list ascii) : Prop := forallb Py.isdecimal ds = true.

(** A word boundary lies between [l] and [r]: exactly one of the last
    character of [l] and the first of [r] is a word character. *)
Definition boundary (l r : list ascii) : Prop :=
  xorb (Re.word_opt (ReSpec.last_char None l)) (Re.word_opt (hd_error r)) = true.

(** [t] is [pre ++ ds ++ post] where [ds] is a run of 3 or 4 decimal digits
    with a word boundary on each side. *)
Definition standalone_year (t pre ds post : list ascii) : Prop :=
  t = pre ++ ds ++ post /\
  (List.length ds = 3 \/ List.length ds = 4)%nat /\
  all_digits ds /\
  boundary pre (ds ++ post) /\
  boundary (pre ++ ds) post.

Definition no_standalone_year (t : list ascii) : Prop :=
  forall pre ds post, ~ standalone_year t pre ds post.

(** Equality of texts up to case. *)
Definition same_ic (w xs : list ascii) : Prop :=
  map Py.lower_char xs = map Py.lower_char w.

Definition ordinal_suffix (suf : list ascii) : Prop :=
  same_ic (Py.chars "st") suf \/ same_ic (Py.chars "nd") suf \/
  same_ic (Py.chars "rd") suf \/ same_ic (Py.chars "th") suf.

(** [t] splits into a prefix, 1 or 2 digits, an ordinal suffix, whitespace,
    the word "century" (suffix and word in any case) and a rest. *)
Definition century_parts (t pre ds suf ws cen post : list ascii) : Prop :=
  t = pre ++ ds ++ suf ++ ws ++ cen ++ post /\
  (List.length ds = 1 \/ List.length ds = 2)%nat /\
  all_digits ds /\
  ordinal_suffix suf /\
  ws <> [] /\ forallb Py.isspace ws = true /\
  same_ic (Py.chars "century") cen.

(** The phrase as the specification words it: anywhere in the text. *)
Definition century_phrase (t pre ds : list ascii) : Prop :=
  exists suf ws cen post, century_parts t pre ds suf ws cen post.

(** The phrase as the pattern has it: with a word boundary before the
    digits and after "century". *)
Definition century_match (t pre ds : list ascii) : Prop :=
  exists suf ws cen post,
    century_parts t pre ds suf ws cen post /\
    boundary pre (ds ++ suf ++ ws ++ cen ++ post) /\
    boundary (pre ++ ds ++ suf ++ ws ++ cen) post.

(** The text [extract_year] reads: that of the first paragraph with
    [ety-sl] and [pb-3] in the first [first-known-content-section] block. *)
Definition first_known_text (soup : Bs4.node) : option string :=
  match Bs4.find soup "div"
          (Bs4.ByFunction (fun x =>
             match x with
             | Some x => Py.truthy x && Py.contains "first-known-content-section" x
             | None => false
             end)) with
  | None => None
  | Some first_known_div =>
      match Bs4.find first_known_div "p"
              (Bs4.ByFunction (fun x =>
                 match x with
                 | Some x => Py.truthy x && Py.contains "ety-sl" x && Py.contains "pb-3" x
                 | None => false
                 end)) with
      | None => None
      | Some year_p => Some (Bs4.get_text year_p)
      end
  end.

(** The etymology region and the paragraph [extract_etymology] selects. *)
Definition etymology_region (soup : Bs4.node) : option Bs4.node :=
  Bs4.find soup "div"
    (Bs4.ByFunction (fun x =>
       match x with
       | Some x => Py.truthy x && Py.contains "etymology-content-section" x
       | None => false
       end)).

Definition etymology_paragraph (soup : Bs4.node) : option Bs4.node :=
  match etymology_region soup with
  | None => None
  | Some etym_div => Bs4.find etym_div "p" (Bs4.ByString "et")
  end.

Definition normalized_text (p : Bs4.node) : string := Bs4.get_text_strip " " p.

(** The three cases in which [extract_etymology] falls back on the year. *)
Definition falls_back (soup : Bs4.node) : Prop :=
  etymology_region soup = None \/
  etymology_paragraph soup = None \/
  exists p, etymology_paragraph soup = Some p /\ normalized_text p = "".

(** A paragraph tag whose class tokens include [token]. *)
Definition has_class_token (token : string) (n : Bs4.node) : bool :=
  match n with
  | Bs4.Tag name (Some tokens) _ =>
      String.eqb name "p" && existsb (String.eqb token) tokens
  | _ => false
  end.

(** The request of [fetch_word_data] fails: [requests.get] raises, or the
    status of the response is one [raise_for_status] raises for. *)
Definition fetch_fails (outcome : string + response) (e : request_exception) : Prop :=
  match outcome with
  | inl msg => e = Transport msg
  | inr r => 400 <= status_code r < 600 /\ e = HTTPError (status_code r)
  end.

(** The rows [main] keeps. *)
Definition kept (row : list string) : bool := (3 <=? List.length row)%nat.

(** [out] is [row] with exactly three values appended: an integer, a
    string and a boolean. *)
Definition enriched (row : list string) (out : list cell) : Prop :=
  exists year etym is_accurate,
    out = map Str row ++ [Int year; Str etym; Boolean is_accurate].

(** Pages used as concrete inputs. *)
Definition page (year_text : string) (et_class : list string) (etym : list Bs4.node)
  : Bs4.node :=
  Bs4.Tag "[document]" None
    [Bs4.Tag "div" (Some ["first-known-content-section"])
       [Bs4.Tag "p" (Some ["ety-sl"; "pb-3"]) [Bs4.NavigableString year_text]];
     Bs4.Tag "div" (Some ["etymology-content-section"])
       [Bs4.Tag "p" (Some et_class) etym]].

Definition empty_world : world := World [] [] [] 0.

(** Three statements of the specification, as it words them, for one
    call; the theorems below say where they hold. *)

(** A century phrase anywhere in a text without a standalone year gives
    the start year of that century. *)
Definition century_phrase_gives_century (soup : Bs4.node) (word : string) (w : world)
  : Prop :=
  forall text,
    first_known_text soup = Some text ->
    no_standalone_year (Py.chars text) ->
    (exists pre ds, century_phrase (Py.chars text) pre ds) ->
    exists pre ds,
      century_phrase (Py.chars text) pre ds /\
      value (extract_year soup word w) = inr ((Py.digits_value ds - 1) * 100, false).

(** The selected etymology paragraph has the class tokens ["et"] and no
    others. *)
Definition paragraph_class_is_exactly_et (soup : Bs4.node) : Prop :=
  forall name class_ contents,
    etymology_paragraph soup = Some (Bs4.Tag name class_ contents) ->
    class_ = Some ["et"].

(** An accurate year lies between 100 and 9999. *)
Definition accurate_year_has_no_leading_zero (soup : Bs4.node) (word : string)
    (w : world) : Prop :=
  forall year, value (extract_year soup word w) = inr (year, true) ->
               100 <= year <= 9999.

(** The world [w] after more lines on the error stream. *)
Definition with_stderr (w : world) (msgs : list message) : world :=
  World (stdout w) (stderr w ++ msgs) (outfile w) (requests_sent w).

(* ===================================================================== *)
(** ** More vocabulary: lookups by class, rows, the shape of a text *)
(* ===================================================================== *)

(** Some class token contains [needle]. *)
Definition token_contains (needle : string) (class_ : option (list string)) : bool :=
  match class_ with
  | Some tokens => existsb (Py.contains needle) tokens
  | None => false
  end.

(** A [div] one of whose class tokens contains [needle]. *)
Definition div_with (needle : string) (n : Bs4.node) : bool :=
  match n with
  | Bs4.Tag name class_ _ => String.eqb name "div" && token_contains needle class_
  | _ => false
  end.

(** A [p] with "ety-sl" in one of its class tokens and "pb-3" in one of
    them, the same or another. *)
Definition year_paragraph (n : Bs4.node) : bool :=
  match n with
  | Bs4.Tag name class_ _ =>
      String.eqb name "p"
      && (token_contains "ety-sl" class_ && token_contains "pb-3" class_)
  | _ => false
  end.

(** The word of a row: its third field. *)
Definition word_of (row : list string) : string := nth 2 row "".

(** The answers of the network do not change during the run. *)
Definition steady (network : nat -> string -> Z -> string + response) : Prop :=
  forall n m url timeout, network n url timeout = network m url timeout.

(** The three values [fetch_word_data] gives for a word when it is the
    first to be fetched. *)
Definition resolved (network : nat -> string -> Z -> string + response)
    (html_parser : string -> Bs4.node) (word : string) : list cell :=
  match value (fetch_word_data network html_parser word empty_world) with
  | inr (year, etym, is_accurate) => [Int year; Str etym; Boolean is_accurate]
  | inl _ => []
  end.

(** Two more statements of the specification, as it words them. *)

(** For one page and one year: the result is the classification of the
    year exactly in the three fall-back cases. *)
Definition classified_exactly_on_fall_back (soup : Bs4.node) (year : Z) : Prop :=
  extract_etymology soup year = classify_by_year year <-> falls_back soup.

(** The fetch fails as the specification words it: [requests.get] raises,
    or the status of the response is not a 2xx. *)
Definition fails_or_not_2xx (outcome : string + response) : Prop :=
  match outcome with
  | inl _ => True
  | inr r => ~ 200 <= status_code r < 300
  end.

(** Every such fetch gives the unresolved triple. *)
Definition unresolved_unless_2xx (network : nat -> string -> Z -> string + response)
    (html_parser : string -> Bs4.node) (word : string) (w : world) : Prop :=
  fails_or_not_2xx
    (network (requests_sent w)
       ("https://www.merriam-webster.com/dictionary/" ++ Py.lower word)%string 10) ->
  value (fetch_word_data network html_parser word w) = inr (-1, "unknown", false).

(** Every string below [p] is whitespace only. *)
Definition is_blank (p : Bs4.node) : bool :=
  forallb (fun s => forallb Py.isspace (Py.chars s)) (Bs4.strings p).

(** A text that is not empty and has no whitespace at either end. *)
Definition trimmed (s : string) : Prop :=
  match Py.chars s with
  | [] => False
  | c :: _ => Py.isspace c = false
  end /\
  match rev (Py.chars s) with
  | [] => False
  | c :: _ => Py.isspace c = false
  end.

(** [t] is [s] without the whitespace at its two ends. *)
Definition stripped (s t : string) : Prop :=
  exists l r,
    Py.chars s = l ++ Py.chars t ++ r /\
    forallb Py.isspace l = true /\ forallb Py.isspace r = true /\
    (t = "" \/ trimmed t).


(* ===================================================================== *)
(** ** The matcher against the relation *)
(* ===================================================================== *)

Module ReFacts.
Import Re ReSpec.

Lemma last_char_app prev xs ys :
  last_char prev (xs ++ ys) = last_char (last_char prev xs) ys.
Proof. unfold last_char. apply fold_left_app. Qed.

Lemma last_char_snoc prev xs c : last_char prev (xs ++ [c]) = Some c.
Proof. rewrite last_char_app. reflexivity. Qed.

Lemma reads_nil a : reads a [] a.
Proof. repeat split. Qed.

Lemma reads_app a xs b ys c : reads a xs b -> reads b ys c -> reads a (xs ++ ys) c.
Proof.
  intros (R1 & B1 & G1) (R2 & B2 & G2). repeat split.
  - rewrite R1, R2. now rewrite app_assoc.
  - rewrite B2, B1. symmetry. apply last_char_app.
  - congruence.
Qed.

Lemma iter_app (m : cursor -> cursor -> Prop) i j a b c :
  iter m i a b -> iter m j b c -> iter m (i + j) a c.
Proof.
  revert a. induction i as [|i IH]; simpl; intros a H1 H2.
  - now subst.
  - destruct H1 as (mid & Hm & Hi). exists mid. split; [assumption|]. now apply IH.
Qed.

Lemma iter_split (m : cursor -> cursor -> Prop) i j a c :
  iter m (i + j) a c -> exists b, iter m i a b /\ iter m j b c.
Proof.
  revert a. induction i as [|i IH]; simpl; intros a H.
  - now exists a.
  - destruct H as (mid & Hm & Hi). destruct (IH _ Hi) as (b & H1 & H2).
    exists b. split; [|assumption]. now exists mid.
Qed.

(** *** Lengths *)

Lemma one_length p a b : one p a b -> S (List.length (rest b)) = List.length (rest a).
Proof. intros (c & _ & R & _). rewrite R. reflexivity. Qed.

Lemma iter_length_le (m : cursor -> cursor -> Prop) :
  (forall a b, m a b -> (List.length (rest b) <= List.length (rest a))%nat) ->
  forall n a b, iter m n a b -> (List.length (rest b) <= List.length (rest a))%nat.
Proof.
  intros Hm n. induction n as [|n IH]; simpl; intros a b H.
  - subst. lia.
  - destruct H as (mid & H1 & H2). apply Hm in H1. apply IH in H2. lia.
Qed.

Lemma iter_length_lt (m : cursor -> cursor -> Prop) :
  (forall a b, m a b -> (List.length (rest b) < List.length (rest a))%nat) ->
  forall n a b, iter m n a b -> (n + List.length (rest b) <= List.length (rest a))%nat.
Proof.
  intros Hm n. induction n as [|n IH]; simpl; intros a b H.
  - subst. lia.
  - destruct H as (mid & H1 & H2). apply Hm in H1. apply IH in H2. lia.
Qed.

Lemma matches_length_le ic r :
  forall a b, matches ic r a b -> (List.length (rest b) <= List.length (rest a))%nat.
Proof.
  induction r as [| p | c | | r1 IH1 r2 IH2 | r1 IH1 r2 IH2 | lo hi r IH | r IH];
    simpl; intros a b H.
  - subst. lia.
  - apply one_length in H. lia.
  - apply one_length in H. lia.
  - destruct H as [_ ->]. lia.
  - destruct H as (mid & H1 & H2). apply IH1 in H1. apply IH2 in H2. lia.
  - destruct H as [H | H]; auto.
  - destruct H as (n & _ & _ & H). eapply iter_length_le; eauto.
  - destruct H as (b' & H & ->). simpl. auto.
Qed.

Lemma matches_length_lt ic r :
  consuming r = true ->
  forall a b, matches ic r a b -> (List.length (rest b) < List.length (rest a))%nat.
Proof.
  induction r as [| p | c | | r1 IH1 r2 IH2 | r1 IH1 r2 IH2 | lo hi r IH | r IH];
    simpl; intros C a b H; try discriminate.
  - apply one_length in H. lia.
  - apply one_length in H. lia.
  - destruct H as (mid & H1 & H2).
    pose proof (matches_length_le _ _ _ _ H1). pose proof (matches_length_le _ _ _ _ H2).
    apply orb_true_iff in C. destruct C as [C | C].
    + specialize (IH1 C _ _ H1). lia.
    + specialize (IH2 C _ _ H2). lia.
  - apply andb_true_iff in C. destruct C as [C1 C2]. destruct H as [H | H]; auto.
  - apply andb_true_iff in C. destruct C as [C1 C2]. apply Nat.ltb_lt in C1.
    destruct H as (n & Hlo & _ & H).
    pose proof (iter_length_lt _ (IH C2) _ _ _ H). lia.
  - destruct H as (b' & H & ->). simpl. auto.
Qed.

(** *** Soundness: a result of the matcher is a match the continuation
    accepts *)

Lemma step_sound p : sound_body (step p) (one p).
Proof.
  intros k [prev s g] res. unfold step. simpl.
  destruct s as [|c s]; [discriminate|].
  destruct (p c) eqn:Hp; [|discriminate].
  intros H. eexists. split; [|exact H].
  exists c. repeat split; assumption.
Qed.

Lemma at_least_sound body m (Hb : sound_body body m) n :
  forall k a res, at_least body n k a = Some res ->
  exists b, iter m n a b /\ k b = Some res.
Proof.
  induction n as [|n IH]; simpl; intros k a res H.
  - now exists a.
  - apply Hb in H. destruct H as (mid & Hm & H).
    apply IH in H. destruct H as (b & Hi & Hk).
    exists b. split; [|assumption]. now exists mid.
Qed.

Lemma at_most_sound body m (Hb : sound_body body m) n :
  forall k a res, at_most body n k a = Some res ->
  exists j b, (j <= n)%nat /\ iter m j a b /\ k b = Some res.
Proof.
  induction n as [|n IH]; simpl; intros k a res H.
  - exists O, a. repeat split; [lia | assumption].
  - destruct (body (at_most body n k) a) as [res'|] eqn:E.
    + injection H as ->. apply Hb in E. destruct E as (mid & Hm & E).
      apply IH in E. destruct E as (j & b & Hj & Hi & Hk).
      exists (S j), b. repeat split; [lia | | assumption]. now exists mid.
    + exists O, a. repeat split; [lia | assumption].
Qed.

Theorem exec_sound ic r :
  well_formed r = true -> sound_body (exec ic r) (matches ic r).
Proof.
  induction r as [| p | c | | r1 IH1 r2 IH2 | r1 IH1 r2 IH2 | lo hi r IH | r IH];
    intros W k a res; simpl in *; intros H.
  - now exists a.
  - now apply step_sound.
  - now apply step_sound.
  - destruct (at_boundary a) eqn:B; [|discriminate]. exists a. auto.
  - apply andb_true_iff in W. destruct W as [W1 W2].
    apply (IH1 W1) in H. destruct H as (mid & H1 & H).
    apply (IH2 W2) in H. destruct H as (b & H2 & H).
    exists b. split; [|assumption]. now exists mid.
  - apply andb_true_iff in W. destruct W as [W1 W2].
    destruct (exec ic r1 k a) as [res'|] eqn:E.
    + injection H as ->. apply (IH1 W1) in E. destruct E as (b & E & Hk). exists b. auto.
    + apply (IH2 W2) in H. destruct H as (b & E' & Hk). exists b. auto.
  - assert (Wr : well_formed r = true).
    { destruct hi; apply andb_true_iff in W; tauto. }
    apply (at_least_sound (IH Wr)) in H. destruct H as (mid & H1 & H).
    apply (at_most_sound (IH Wr)) in H. destruct H as (j & b & Hj & H2 & Hk).
    exists b. split; [|assumption].
    exists (lo + j)%nat. repeat split.
    + lia.
    + destruct hi as [h|]; [|exact I].
      apply andb_true_iff in W. destruct W as [W _]. apply Nat.leb_le in W. lia.
    + eapply iter_app; eauto.
  - apply (IH W) in H. destruct H as (b' & Hm & Hk).
    eexists. split; [|exact Hk]. exists b'. auto.
Qed.

(** *** Completeness: where there is a match the continuation accepts,
    the matcher finds one *)

Lemma step_complete p : complete_body (step p) (one p).
Proof.
  intros k [prev s g] [prev' s' g'] res (c & Hp & R & B & G) Hk.
  simpl in *. subst. unfold step. simpl. rewrite Hp. eauto.
Qed.

Lemma at_least_complete body m (Hb : complete_body body m) n :
  forall k a b res, iter m n a b -> k b = Some res ->
  exists res', at_least body n k a = Some res'.
Proof.
  induction n as [|n IH]; simpl; intros k a b res H Hk.
  - subst. eauto.
  - destruct H as (mid & Hm & Hi).
    destruct (IH _ _ _ _ Hi Hk) as (r1 & E). eapply Hb; eauto.
Qed.

Lemma at_most_complete body m (Hb : complete_body body m) n :
  forall j k a b res, (j <= n)%nat -> iter m j a b -> k b = Some res ->
  exists res', at_most body n k a = Some res'.
Proof.
  induction n as [|n IH]; simpl; intros j k a b res Hj H Hk.
  - assert (j = O) by lia. subst. simpl in H. subst. eauto.
  - destruct (body (at_most body n k) a) as [r1|] eqn:E; [eauto|].
    destruct j as [|j]; simpl in H.
    + subst. eauto.
    + destruct H as (mid & Hm & Hi).
      destruct (IH j k mid b res) as (r1 & E1); [lia | assumption | assumption |].
      destruct (Hb _ _ _ _ Hm E1) as (r2 & E2). congruence.
Qed.

Theorem exec_complete ic r :
  well_formed r = true -> complete_body (exec ic r) (matches ic r).
Proof.
  induction r as [| p | c | | r1 IH1 r2 IH2 | r1 IH1 r2 IH2 | lo hi r IH | r IH];
    simpl; intros W k a b res H Hk.
  - subst. eauto.
  - eapply step_complete; eauto.
  - eapply step_complete; eauto.
  - destruct H as [B ->]. rewrite B. eauto.
  - apply andb_true_iff in W. destruct W as [W1 W2].
    destruct H as (mid & H1 & H2).
    destruct (IH2 W2 _ _ _ _ H2 Hk) as (r' & E). eapply IH1; eauto.
  - apply andb_true_iff in W. destruct W as [W1 W2].
    destruct (exec ic r1 k a) as [r'|] eqn:E; [eauto|].
    destruct H as [H | H].
    + destruct (IH1 W1 _ _ _ _ H Hk) as (r' & E'). congruence.
    + eapply IH2; eauto.
  - destruct H as (n & Hlo & Hhi & H).
    replace n with (lo + (n - lo))%nat in H by lia.
    apply iter_split in H. destruct H as (mid & H1 & H2).
    assert (Wr : well_formed r = true).
    { destruct hi; apply andb_true_iff in W; tauto. }
    assert (E : exists res', at_most (exec ic r)
                  match hi with Some h => (h - lo)%nat | None => List.length (rest a) end
                  k mid = Some res').
    { eapply (at_most_complete (IH Wr)); [| exact H2 | exact Hk].
      destruct hi as [h|]; [lia|].
      apply andb_true_iff in W. destruct W as [C _].
      pose proof (iter_length_lt _ (matches_length_lt ic _ C) _ _ _ H2).
      pose proof (iter_length_le _ (matches_length_le ic r) _ _ _ H1). lia. }
    destruct E as (r' & E).
    eapply (at_least_complete (IH Wr)); eauto.
  - destruct H as (b' & H & ->). eapply IH; eauto.
Qed.

End ReFacts.


(** *** [re.search] finds the leftmost position with a match *)

Module SearchFacts.
Import Re ReSpec ReFacts.

Lemma exec_Some_matches ic r a res :
  well_formed r = true -> exec ic r Some a = Some res -> matches ic r a res.
Proof.
  intros W H. apply (exec_sound ic r W) in H.
  destruct H as (b & Hm & E). now injection E as ->.
Qed.

Lemma exec_None_no_match ic r a :
  well_formed r = true -> exec ic r Some a = None -> forall b, ~ matches ic r a b.
Proof.
  intros W H b Hm.
  destruct (exec_complete ic r W Some a b Hm eq_refl) as (res & E). congruence.
Qed.

Lemma search_from_Some ic r (W : well_formed r = true) :
  forall s pre0 res,
    search_from ic r (last_char None pre0) s = Some res ->
    exists pre s',
      s = pre ++ s' /\
      matches ic r (position (pre0 ++ pre) s') res /\
      forall pre1 s1 b,
        s = pre1 ++ s1 -> (List.length pre1 < List.length pre)%nat ->
        ~ matches ic r (position (pre0 ++ pre1) s1) b.
Proof.
  induction s as [|c s IH]; intros pre0 res; simpl.
  - destruct (exec ic r Some (Cursor (last_char None pre0) [] None)) as [m|] eqn:E;
      [|discriminate].
    intros [= ->]. exists [], []. repeat split.
    + rewrite app_nil_r. now apply exec_Some_matches.
    + simpl. intros; lia.
  - destruct (exec ic r Some (Cursor (last_char None pre0) (c :: s) None)) as [m|] eqn:E.
    + intros [= ->]. exists [], (c :: s). repeat split.
      * rewrite app_nil_r. now apply exec_Some_matches.
      * simpl. intros; lia.
    + intros H.
      replace (Some c) with (last_char None (pre0 ++ [c])) in H
        by apply last_char_snoc.
      apply IH in H. destruct H as (pre & s' & -> & Hm & Hleft).
      exists (c :: pre), s'. repeat split.
      * now rewrite <- app_assoc in Hm.
      * intros pre1 s1 b E1 Hlen Hb. destruct pre1 as [|c1 pre1].
        -- simpl in E1. subst s1. rewrite app_nil_r in Hb.
           exact (exec_None_no_match ic r _ W E b Hb).
        -- simpl in E1. injection E1 as -> E1. simpl in Hlen.
           apply (Hleft pre1 s1 b E1); [lia|].
           now rewrite <- app_assoc.
Qed.

Lemma search_from_None ic r (W : well_formed r = true) :
  forall s pre0,
    search_from ic r (last_char None pre0) s = None ->
    forall pre s' b, s = pre ++ s' -> ~ matches ic r (position (pre0 ++ pre) s') b.
Proof.
  induction s as [|c s IH]; intros pre0; simpl.
  - destruct (exec ic r Some (Cursor (last_char None pre0) [] None)) as [m|] eqn:E;
      [discriminate|].
    intros _ pre s' b E1 Hb. symmetry in E1. apply app_eq_nil in E1.
    destruct E1 as [-> ->]. rewrite app_nil_r in Hb.
    exact (exec_None_no_match ic r _ W E b Hb).
  - destruct (exec ic r Some (Cursor (last_char None pre0) (c :: s) None)) as [m|] eqn:E;
      [discriminate|].
    intros H pre s' b E1 Hb.
    replace (Some c) with (last_char None (pre0 ++ [c])) in H
      by apply last_char_snoc.
    destruct pre as [|c1 pre].
    + simpl in E1. subst s'. rewrite app_nil_r in Hb.
      exact (exec_None_no_match ic r _ W E b Hb).
    + simpl in E1. injection E1 as -> E1.
      apply (IH _ H pre s' b E1). now rewrite <- app_assoc.
Qed.

End SearchFacts.


(** *** The pieces of the two patterns *)

Module PatternFacts.
Import Re ReSpec ReFacts.

Lemma cursor_eta (a : cursor) : a = Cursor (before a) (rest a) (group1 a).
Proof. now destruct a. Qed.

Lemma reads_inv a xs b :
  reads a xs b ->
  rest a = xs ++ rest b /\
  b = Cursor (last_char (before a) xs) (rest b) (group1 a).
Proof.
  intros (R & B & G). split; [assumption|].
  rewrite (cursor_eta b). simpl. congruence.
Qed.

Lemma reads_intro p s g xs s' :
  s = xs ++ s' -> reads (Cursor p s g) xs (Cursor (last_char p xs) s' g).
Proof. intros ->. repeat split. Qed.

Lemma reads_nil_inv a b : reads a [] b -> a = b.
Proof.
  intros H. apply reads_inv in H. destruct H as [R ->]. simpl in *.
  rewrite <- R. apply cursor_eta.
Qed.

Lemma iter_one p n :
  forall a b,
    iter (one p) n a b <->
    exists xs, List.length xs = n /\ forallb p xs = true /\ reads a xs b.
Proof.
  induction n as [|n IH]; simpl; intros a b; split.
  - intros ->. exists []. repeat split.
  - intros (xs & L & _ & R). apply length_zero_iff_nil in L. subst.
    now apply reads_nil_inv.
  - intros (mid & (c & Hc & R1) & H). apply IH in H.
    destruct H as (xs & L & F & R2). exists (c :: xs). repeat split.
    + simpl. now rewrite L.
    + simpl. now rewrite Hc.
    + apply (reads_app R1 R2).
    + apply (reads_app R1 R2).
    + apply (reads_app R1 R2).
  - intros (xs & L & F & R). destruct xs as [|c xs]; [discriminate|].
    simpl in L, F. injection L as L. apply andb_true_iff in F. destruct F as [Hc F].
    apply reads_inv in R. destruct R as [R ->].
    exists (Cursor (Some c) (xs ++ rest b) (group1 a)). split.
    + exists c. split; [assumption|]. repeat split. exact R.
    + apply IH. exists xs. repeat split; assumption.
Qed.

(** A literal, ignoring case, reads a text equal to it up to case. *)
Lemma char_eq_ic c x :
  char_eq true c x = true <-> Py.lower_char x = Py.lower_char c.
Proof.
  unfold char_eq. rewrite Ascii.eqb_eq. split; congruence.
Qed.

Lemma matches_literal w :
  forall a b,
    matches true (literal w) a b <-> exists xs, same_ic w xs /\ reads a xs b.
Proof.
  unfold same_ic.
  induction w as [|c w IH]; simpl; intros a b; split.
  - intros ->. exists []. repeat split.
  - intros (xs & E & R). apply map_eq_nil in E. subst. now apply reads_nil_inv.
  - intros (mid & (x & Hx & R1) & H). apply IH in H.
    destruct H as (xs & E & R2). exists (x :: xs). split.
    + simpl. apply char_eq_ic in Hx. congruence.
    + apply (reads_app R1 R2).
  - intros (xs & E & R). destruct xs as [|x xs]; [discriminate|].
    simpl in E. injection E as Ex E.
    apply reads_inv in R. destruct R as [R ->].
    exists (Cursor (Some x) (xs ++ rest b) (group1 a)). split.
    + exists x. split; [now apply char_eq_ic|]. repeat split. exact R.
    + apply IH. exists xs. repeat split; assumption.
Qed.

Lemma matches_suffix a b :
  matches true suffix_re a b <-> exists suf, ordinal_suffix suf /\ reads a suf b.
Proof.
  unfold suffix_re, ordinal_suffix. cbn [matches]. unfold lit.
  rewrite !matches_literal. split.
  - intros [H | [H | [H | H]]]; destruct H as (xs & E & R); exists xs; tauto.
  - intros (xs & [E | [E | [E | E]]] & R); [left | right; left | right; right; left | right; right; right];
      exists xs; tauto.
Qed.

(** [\s+] *)
Lemma matches_spaces a b :
  matches true (Repeat 1 None space) a b <->
  exists ws, ws <> [] /\ forallb Py.isspace ws = true /\ reads a ws b.
Proof.
  simpl. split.
  - intros (n & Hn & _ & H). apply iter_one in H.
    destruct H as (ws & L & F & R). exists ws. repeat split; try assumption; try apply R.
    intros ->. simpl in L. lia.
  - intros (ws & N & F & R). exists (List.length ws). repeat split.
    + destruct ws; [congruence | simpl; lia].
    + apply iter_one. exists ws. repeat split; try assumption; apply R.
Qed.

(** [(\d{lo,hi})]: group 1 becomes the digits read. *)
Lemma matches_digits_group ic lo hi a b :
  matches ic (Group (Repeat lo (Some hi) digit)) a b <->
  exists ds,
    (lo <= List.length ds <= hi)%nat /\ all_digits ds /\
    rest a = ds ++ rest b /\
    b = Cursor (last_char (before a) ds) (rest b) (Some ds).
Proof.
  unfold all_digits. simpl. split.
  - intros (b' & (n & Hlo & Hhi & H) & ->). apply iter_one in H.
    destruct H as (ds & L & F & R). apply reads_inv in R. destruct R as [R E].
    exists ds. simpl. repeat split; try lia; try assumption.
    rewrite R, E. simpl. rewrite length_app.
    replace (List.length ds + List.length (rest b') - List.length (rest b'))%nat
      with (List.length ds + 0)%nat by lia.
    rewrite firstn_app_2. simpl. now rewrite app_nil_r.
  - intros (ds & [Hlo Hhi] & F & R & E).
    exists (Cursor (last_char (before a) ds) (rest b) (group1 a)). split.
    + exists (List.length ds). repeat split; try assumption.
      apply iter_one. exists ds. repeat split; assumption.
    + rewrite E at 1. simpl. rewrite R, length_app.
      replace (List.length ds + List.length (rest b) - List.length (rest b))%nat
        with (List.length ds + 0)%nat by lia.
      rewrite firstn_app_2. simpl. now rewrite app_nil_r.
Qed.

Lemma matches_boundary ic a b :
  matches ic WordBoundary a b <-> at_boundary a = true /\ a = b.
Proof. reflexivity. Qed.

End PatternFacts.


(** *** The two patterns of [extract_year] *)

Module YearPatterns.
Import Re ReSpec ReFacts SearchFacts PatternFacts.

Lemma year_re_well_formed : well_formed year_re = true.
Proof. reflexivity. Qed.

Lemma century_re_well_formed : well_formed century_re = true.
Proof. reflexivity. Qed.

(** [\b(\d{3,4})\b] matches at a position exactly where a standalone
    year starts, and captures its digits. *)
Lemma year_re_matches pre s b :
  matches false year_re (position pre s) b <->
  exists ds post,
    standalone_year (pre ++ s) pre ds post /\
    b = Cursor (last_char None (pre ++ ds)) post (Some ds).
Proof.
  unfold year_re, standalone_year, boundary. cbn [matches]. split.
  - intros (mid & [B1 <-] & mid2 & G & B2 & <-).
    apply matches_digits_group in G. destruct G as (ds & L & D & R & E).
    simpl in R, E. exists ds, (rest mid2).
    rewrite E in B2. unfold at_boundary in B1, B2. simpl in B1, B2.
    rewrite last_char_app. rewrite <- R.
    repeat split; try assumption. lia.
  - intros (ds & post & (E & L & D & B1 & B2) & ->).
    apply app_inv_head in E. subst s.
    exists (position pre (ds ++ post)). split; [split; [exact B1 | reflexivity]|].
    exists (Cursor (last_char None (pre ++ ds)) post (Some ds)). split.
    + apply matches_digits_group. exists ds. simpl.
      repeat split; try assumption; [lia | lia |].
      now rewrite <- last_char_app.
    + split; [|reflexivity]. unfold at_boundary. simpl. exact B2.
Qed.

(** [\b(\d{1,2})(?:st|nd|rd|th)\s+century\b], ignoring case. *)
Lemma century_re_matches pre s b :
  matches true century_re (position pre s) b <->
  exists ds suf ws cen post,
    century_parts (pre ++ s) pre ds suf ws cen post /\
    boundary pre s /\
    boundary (pre ++ ds ++ suf ++ ws ++ cen) post /\
    b = Cursor (last_char None (pre ++ ds ++ suf ++ ws ++ cen)) post (Some ds).
Proof.
  unfold century_re, century_parts, boundary. cbn [matches]. split.
  - intros (m0 & [B1 <-] & m1 & G & m2 & S1 & m3 & S2 & m4 & S3 & B2 & <-).
    apply matches_digits_group in G. destruct G as (ds & L & D & R1 & E1).
    apply matches_suffix in S1. destruct S1 as (suf & O & R2).
    apply matches_spaces in S2. destruct S2 as (ws & N & F & R3).
    apply matches_literal in S3. destruct S3 as (cen & C & R4).
    apply reads_inv in R2. destruct R2 as [R2 E2].
    apply reads_inv in R3. destruct R3 as [R3 E3].
    apply reads_inv in R4. destruct R4 as [R4 E4].
    simpl in R1, E1. rewrite E1 in E2. simpl in E2. rewrite E2 in E3. simpl in E3.
    rewrite E3 in E4. simpl in E4.
    exists ds, suf, ws, cen, (rest m4).
    assert (Es : s = ds ++ suf ++ ws ++ cen ++ rest m4) by congruence.
    unfold at_boundary in B1, B2. simpl in B1.
    rewrite E4 in B2 at 1. simpl in B2.
    rewrite !last_char_app.
    repeat split; try assumption; try lia.
    now rewrite Es.
  - intros (ds & suf & ws & cen & post & (E & L & D & O & N & F & C) & B1 & B2 & ->).
    apply app_inv_head in E. subst s.
    exists (position pre (ds ++ suf ++ ws ++ cen ++ post)).
    split; [split; [exact B1 | reflexivity]|].
    exists (Cursor (last_char None (pre ++ ds)) (suf ++ ws ++ cen ++ post) (Some ds)).
    split.
    { apply matches_digits_group. exists ds. simpl.
      repeat split; try assumption; [lia | lia |].
      now rewrite <- last_char_app. }
    exists (Cursor (last_char None (pre ++ ds ++ suf)) (ws ++ cen ++ post) (Some ds)).
    split.
    { apply matches_suffix. exists suf. split; [assumption|]. repeat split.
      simpl. rewrite <- last_char_app. now rewrite <- !app_assoc. }
    exists (Cursor (last_char None (pre ++ ds ++ suf ++ ws)) (cen ++ post) (Some ds)).
    split.
    { apply matches_spaces. exists ws. repeat split; try assumption.
      simpl. rewrite <- last_char_app. now rewrite <- !app_assoc. }
    exists (Cursor (last_char None (pre ++ ds ++ suf ++ ws ++ cen)) post (Some ds)).
    split.
    { apply matches_literal. exists cen. split; [assumption|]. repeat split.
      simpl. rewrite <- last_char_app. now rewrite <- !app_assoc. }
    split; [|reflexivity]. unfold at_boundary. simpl. exact B2.
Qed.

(** [re.search(r'\b(\d{3,4})\b', t)] *)
Lemma search_year t :
  match search_from false year_re None t with
  | Some res =>
      exists pre ds post,
        standalone_year t pre ds post /\
        group1 res = Some ds /\
        forall pre' ds' post',
          standalone_year t pre' ds' post' ->
          (List.length pre <= List.length pre')%nat
  | None => no_standalone_year t
  end.
Proof.
  destruct (search_from false year_re None t) as [res|] eqn:E.
  - apply (search_from_Some false year_re year_re_well_formed t []) in E.
    destruct E as (pre & s & -> & Hm & Hleft). simpl in Hm.
    apply year_re_matches in Hm. destruct Hm as (ds & post & Hs & ->).
    exists pre, ds, post. split; [exact Hs|]. split; [reflexivity|].
    intros pre' ds' post' Hs'.
    destruct (Nat.le_gt_cases (List.length pre) (List.length pre')) as [|Hlt];
      [assumption|exfalso].
    pose proof Hs' as (Et & _).
    eapply (Hleft pre' (ds' ++ post') _ Et Hlt). simpl.
    apply year_re_matches. exists ds', post'. rewrite <- Et. split; [assumption|reflexivity].
  - intros pre ds post Hs. pose proof Hs as (Et & _).
    eapply (@search_from_None false year_re year_re_well_formed t [] E pre (ds ++ post) _ Et).
    simpl. apply year_re_matches. exists ds, post. rewrite <- Et.
    split; [assumption|reflexivity].
Qed.

(** [re.search(r'\b(\d{1,2})(?:st|nd|rd|th)\s+century\b', t, re.IGNORECASE)] *)
Lemma search_century t :
  match search_from true century_re None t with
  | Some res =>
      exists pre ds,
        century_match t pre ds /\
        group1 res = Some ds /\
        forall pre' ds',
          century_match t pre' ds' ->
          (List.length pre <= List.length pre')%nat
  | None => forall pre ds, ~ century_match t pre ds
  end.
Proof.
  destruct (search_from true century_re None t) as [res|] eqn:E.
  - apply (search_from_Some true century_re century_re_well_formed t []) in E.
    destruct E as (pre & s & -> & Hm & Hleft). simpl in Hm.
    apply century_re_matches in Hm.
    destruct Hm as (ds & suf & ws & cen & post & Hp & B1 & B2 & ->).
    exists pre, ds. split; [|split; [reflexivity|]].
    + exists suf, ws, cen, post. pose proof Hp as (Et & _).
      apply app_inv_head in Et. subst s. repeat split; try assumption; apply Hp.
    + intros pre' ds' (suf' & ws' & cen' & post' & Hp' & B1' & B2').
      destruct (Nat.le_gt_cases (List.length pre) (List.length pre')) as [|Hlt];
        [assumption|exfalso].
      pose proof Hp' as (Et & _).
      eapply (Hleft pre' _ _ Et Hlt). simpl.
      apply century_re_matches. exists ds', suf', ws', cen', post'.
      rewrite <- Et. repeat split; try assumption; apply Hp'.
  - intros pre ds (suf & ws & cen & post & Hp & B1 & B2).
    pose proof Hp as (Et & _).
    eapply (@search_from_None true century_re century_re_well_formed t [] E pre _ _ Et).
    simpl. apply century_re_matches. exists ds, suf, ws, cen, post.
    rewrite <- Et. repeat split; try assumption; apply Hp.
Qed.

End YearPatterns.


(* ===================================================================== *)
(** ** Digits *)
(* ===================================================================== *)

Module DigitFacts.
Import Re ReSpec ReFacts.

Lemma digit_value_range c : Py.isdecimal c = true -> 0 <= Py.digit_value c <= 9.
Proof.
  unfold Py.isdecimal, Py.between, Py.digit_value. intros H.
  apply andb_true_iff in H. destruct H as [H1 H2].
  apply N.leb_le in H1, H2. lia.
Qed.

Lemma digits_value_snoc ds c :
  Py.digits_value (ds ++ [c]) = 10 * Py.digits_value ds + Py.digit_value c.
Proof. unfold Py.digits_value. now rewrite fold_left_app. Qed.

Lemma digits_value_range ds :
  all_digits ds -> 0 <= Py.digits_value ds < 10 ^ Z.of_nat (List.length ds).
Proof.
  unfold all_digits. induction ds as [|c ds IH] using rev_ind; intros H.
  - simpl. unfold Py.digits_value. simpl. lia.
  - rewrite forallb_app in H. apply andb_true_iff in H. destruct H as [H1 H2].
    simpl in H2. rewrite andb_true_r in H2.
    specialize (IH H1). pose proof (digit_value_range _ H2).
    rewrite digits_value_snoc, length_app. simpl List.length.
    rewrite Nat2Z.inj_add, Z.pow_add_r by lia. simpl Z.of_nat. lia.
Qed.

Lemma digit_is_word c : Py.isdecimal c = true -> is_word c = true.
Proof.
  unfold is_word, Py.isalnum. intros ->.
  now rewrite orb_true_r.
Qed.

Lemma last_char_forall (p : ascii -> bool) xs :
  xs <> [] -> forallb p xs = true ->
  forall prev, exists c, last_char prev xs = Some c /\ p c = true.
Proof.
  induction xs as [|x xs IH] using rev_ind; intros N F prev; [congruence|].
  rewrite forallb_app in F. apply andb_true_iff in F. destruct F as [_ F].
  simpl in F. rewrite andb_true_r in F.
  exists x. now rewrite last_char_snoc.
Qed.

Lemma int_digits ds w :
  ds <> [] -> all_digits ds -> int ds w = (inr (Py.digits_value ds), w).
Proof.
  unfold all_digits, int. intros N D.
  destruct ds as [|c ds]; [congruence|]. now rewrite D.
Qed.

Lemma length_nonempty (ds : list ascii) n :
  List.length ds = S n -> ds <> [].
Proof. now destruct ds. Qed.

End DigitFacts.

(* ===================================================================== *)
(** ** [extract_year], case by case *)
(* ===================================================================== *)

Module YearFacts.
Import Re ReSpec ReFacts YearPatterns DigitFacts.

(** What [extract_year] does, in full: without a first-known-use
    paragraph it reports no year; with one, it returns the leftmost
    standalone year if there is any, else the start of the century of
    the leftmost century phrase if there is any, else no year. *)
Lemma extract_year_cases soup word w :
  match first_known_text soup with
  | None =>
      extract_year soup word w = (inr (-1, false), with_stderr w [No_year_found word])
  | Some text =>
      (exists pre ds post,
          standalone_year (Py.chars text) pre ds post /\
          (forall pre' ds' post',
              standalone_year (Py.chars text) pre' ds' post' ->
              (List.length pre <= List.length pre')%nat) /\
          extract_year soup word w = (inr (Py.digits_value ds, true), w))
      \/
      (no_standalone_year (Py.chars text) /\
       exists pre ds,
         century_match (Py.chars text) pre ds /\
         (forall pre' ds',
             century_match (Py.chars text) pre' ds' ->
             (List.length pre <= List.length pre')%nat) /\
         extract_year soup word w =
           (inr ((Py.digits_value ds - 1) * 100, false),
            with_stderr w [Found_century word (Py.digits_value ds)
                             ((Py.digits_value ds - 1) * 100)]))
      \/
      (no_standalone_year (Py.chars text) /\
       (forall pre ds, ~ century_match (Py.chars text) pre ds) /\
       extract_year soup word w = (inr (-1, false), with_stderr w [No_year_found word]))
  end.
Proof.
  unfold first_known_text, extract_year.
  destruct (Bs4.find soup "div" _) as [first_known_div|]; [|reflexivity].
  destruct (Bs4.find first_known_div "p" _) as [year_p|]; [|reflexivity].
  set (text := Bs4.get_text year_p). unfold search.
  pose proof (search_year (Py.chars text)) as HA.
  destruct (search_from false year_re None (Py.chars text)) as [ym|].
  - left. destruct HA as (pre & ds & post & Hs & G & Hleft).
    exists pre, ds, post. split; [assumption|]. split; [assumption|].
    unfold bind, int_group1. rewrite G.
    rewrite int_digits; [reflexivity | |].
    + destruct Hs as (_ & [L | L] & _); eapply length_nonempty; eauto.
    + apply Hs.
  - right.
    pose proof (search_century (Py.chars text)) as HB.
    destruct (search_from true century_re None (Py.chars text)) as [cm|].
    + left. split; [assumption|].
      destruct HB as (pre & ds & Hm & G & Hleft).
      exists pre, ds. split; [assumption|]. split; [assumption|].
      unfold bind, int_group1. rewrite G.
      destruct Hm as (suf & ws & cen & post & (_ & L & D & _) & _).
      rewrite int_digits; [reflexivity | | assumption].
      destruct L as [L | L]; eapply length_nonempty; eauto.
    + right. repeat split; assumption.
Qed.

End YearFacts.


(** *** One match per position *)

Module Leftmost.
Import Re ReSpec ReFacts YearPatterns DigitFacts.

Lemma app_same_length (A : Type) (l1 l1' l2 l2' : list A) :
  List.length l1 = List.length l1' -> l1 ++ l2 = l1' ++ l2' -> l1 = l1' /\ l2 = l2'.
Proof.
  revert l1'. induction l1 as [|x l1 IH]; intros [|x' l1'] L E; try discriminate.
  - auto.
  - simpl in L, E. injection L as L. injection E as -> E.
    destruct (IH _ L E) as [-> ->]. auto.
Qed.

Lemma word_after_digits pre ds :
  ds <> [] -> all_digits ds -> word_opt (last_char None (pre ++ ds)) = true.
Proof.
  intros N D. rewrite last_char_app.
  destruct (@last_char_forall Py.isdecimal ds N D (last_char None pre)) as (c & -> & Hc).
  simpl. now apply digit_is_word.
Qed.

(** A standalone year has no word character next to it: no digit, no
    letter, no underscore. *)
Lemma standalone_year_neighbours t pre ds post :
  standalone_year t pre ds post ->
  word_opt (last_char None pre) = false /\ word_opt (hd_error post) = false.
Proof.
  intros (_ & L & D & B1 & B2). unfold boundary in B1, B2.
  assert (N : ds <> []) by (destruct L as [L | L]; eapply length_nonempty; eauto).
  rewrite (word_after_digits pre N D) in B2.
  destruct ds as [|d ds]; [congruence|].
  unfold all_digits in D. simpl in D, B1. apply andb_true_iff in D. destruct D as [D _].
  rewrite (digit_is_word _ D) in B1.
  split.
  - now destruct (word_opt (last_char None pre)).
  - now destruct (word_opt (hd_error post)).
Qed.

(** Two standalone years that start at the same place are the same. *)
Lemma standalone_year_unique t pre ds post pre' ds' post' :
  standalone_year t pre ds post ->
  standalone_year t pre' ds' post' ->
  List.length pre = List.length pre' ->
  pre = pre' /\ ds = ds' /\ post = post'.
Proof.
  intros (E & L & D & _ & B) (E' & L' & D' & _ & B') Lp.
  rewrite E in E'. destruct (app_same_length _ _ _ _ Lp E') as [<- E2].
  split; [reflexivity|].
  assert (Hlen : List.length ds = List.length ds' -> ds = ds' /\ post = post').
  { intros Ld. exact (app_same_length _ _ _ _ Ld E2). }
  assert (Hno : forall (xs us : list ascii) c,
             all_digits xs -> xs <> [] -> all_digits (xs ++ [c]) ->
             boundary (pre ++ xs) (c :: us) -> False).
  { intros xs us c Dx Nx Dc Bx. unfold boundary in Bx.
    rewrite (word_after_digits pre Nx Dx) in Bx. simpl in Bx.
    unfold all_digits in Dc. rewrite forallb_app in Dc.
    apply andb_true_iff in Dc. destruct Dc as [_ Dc]. simpl in Dc.
    rewrite andb_true_r in Dc. rewrite (digit_is_word _ Dc) in Bx. discriminate. }
  destruct L as [L | L], L' as [L' | L']; try (apply Hlen; congruence); exfalso.
  - destruct ds as [|a [|b [|c [|]]]]; try discriminate.
    destruct ds' as [|a' [|b' [|c' [|d' [|]]]]]; try discriminate.
    simpl in E2. injection E2 as -> -> -> ->.
    apply (Hno [a'; b'; c'] post' d'); try assumption; discriminate.
  - destruct ds' as [|a [|b [|c [|]]]]; try discriminate.
    destruct ds as [|a' [|b' [|c' [|d' [|]]]]]; try discriminate.
    simpl in E2. injection E2 as <- <- <- <-.
    apply (Hno [a'; b'; c'] post d'); try assumption; discriminate.
Qed.

Lemma suffix_starts_with_letter suf :
  ordinal_suffix suf ->
  exists x suf', suf = x :: suf' /\ Py.isdecimal x = false.
Proof.
  unfold ordinal_suffix, same_ic.
  intros [H | [H | [H | H]]];
    (destruct suf as [|x suf']; [discriminate|]);
    exists x, suf'; (split; [reflexivity|]);
    simpl in H; injection H as Hx _;
    destruct x as [[] [] [] [] [] [] [] []]; vm_compute in Hx; try discriminate;
    reflexivity.
Qed.

(** Two matches of the century phrase that start at the same place have
    the same digits. *)
Lemma century_match_unique t pre ds pre' ds' :
  century_match t pre ds ->
  century_match t pre' ds' ->
  List.length pre = List.length pre' ->
  pre = pre' /\ ds = ds'.
Proof.
  intros (suf & ws & cen & post & (E & L & D & O & _) & _)
         (suf' & ws' & cen' & post' & (E' & L' & D' & O' & _) & _) Lp.
  rewrite E in E'. destruct (app_same_length _ _ _ _ Lp E') as [<- E2].
  split; [reflexivity|].
  destruct (suffix_starts_with_letter O) as (x & s1 & -> & Hx).
  destruct (suffix_starts_with_letter O') as (x' & s1' & -> & Hx').
  unfold all_digits in D, D'.
  destruct L as [L | L], L' as [L' | L'].
  - destruct (app_same_length ds ds' _ _ (eq_trans L (eq_sym L')) E2) as [-> _]; reflexivity.
  - exfalso. destruct ds as [|a [|]]; try discriminate.
    destruct ds' as [|a' [|b' [|]]]; try discriminate.
    simpl in E2. injection E2 as -> -> _. simpl in D'.
    rewrite Hx in D'. now rewrite andb_false_r in D'.
  - exfalso. destruct ds' as [|a [|]]; try discriminate.
    destruct ds as [|a' [|b' [|]]]; try discriminate.
    simpl in E2. injection E2 as -> <- _. simpl in D.
    rewrite Hx' in D. now rewrite andb_false_r in D.
  - destruct (app_same_length ds ds' _ _ (eq_trans L (eq_sym L')) E2) as [-> _]; reflexivity.
Qed.

Lemma no_standalone_year_by_search t :
  search_from false year_re None t = None -> no_standalone_year t.
Proof. intros E. pose proof (search_year t) as H. now rewrite E in H. Qed.

Lemma no_century_match_by_search t :
  search_from true century_re None t = None ->
  forall pre ds, ~ century_match t pre ds.
Proof. intros E. pose proof (search_century t) as H. now rewrite E in H. Qed.

End Leftmost.


(** *** What [extract_year] returns *)

Module YearResults.
Import YearFacts DigitFacts.

Lemma with_stderr_nil w : with_stderr w [] = w.
Proof. destruct w. unfold with_stderr. simpl. now rewrite app_nil_r. Qed.

(** [extract_year] always returns, touches only the error stream, and
    returns one of three kinds of result. *)
Lemma extract_year_returns soup word w :
  exists year is_accurate msgs,
    extract_year soup word w = (inr (year, is_accurate), with_stderr w msgs) /\
    ((is_accurate = true /\ 0 <= year <= 9999) \/
     (is_accurate = false /\ year = -1) \/
     (is_accurate = false /\ exists c, 0 <= c <= 99 /\ year = (c - 1) * 100)).
Proof.
  pose proof (extract_year_cases soup word w) as H.
  destruct (first_known_text soup) as [text|].
  - destruct H as [(pre & ds & post & Hs & _ & E)
                  | [(_ & pre & ds & Hm & _ & E) | (_ & _ & E)]].
    + exists (Py.digits_value ds), true, []. rewrite with_stderr_nil.
      split; [assumption|]. left. split; [reflexivity|].
      destruct Hs as (_ & L & D & _).
      pose proof (digits_value_range D) as R.
      assert (10 ^ Z.of_nat (List.length ds) <= 10000).
      { destruct L as [-> | ->]; simpl; lia. }
      lia.
    + eexists _, false, _. split; [exact E|]. right. right.
      split; [reflexivity|]. exists (Py.digits_value ds). split; [|reflexivity].
      destruct Hm as (suf & ws & cen & post & (_ & L & D & _) & _).
      pose proof (digits_value_range D) as R.
      assert (10 ^ Z.of_nat (List.length ds) <= 100).
      { destruct L as [-> | ->]; simpl; lia. }
      lia.
    + eexists _, false, _. split; [exact E|]. right. left. auto.
  - eexists _, false, _. split; [exact H|]. right. left. auto.
Qed.

End YearResults.

(* ===================================================================== *)
(** ** The claims about the year *)
(* ===================================================================== *)

(** C1.  [classify_by_year] returns "modern english" exactly for the
    years from 1800 on, "early modern english" exactly for the years
    strictly between 1450 and 1800, and "unknown" for all others; at the
    bounds: 1450 is "unknown", 1451 and 1799 are "early modern english",
    1800 is "modern english", and -1 is "unknown". *)
Theorem classify_by_year_spec :
  (forall y,
      (classify_by_year y = "modern english" <-> y >= 1800) /\
      (classify_by_year y = "early modern english" <-> 1450 < y < 1800) /\
      (classify_by_year y = "unknown" <-> y <= 1450)) /\
  classify_by_year 1450 = "unknown" /\
  classify_by_year 1451 = "early modern english" /\
  classify_by_year 1799 = "early modern english" /\
  classify_by_year 1800 = "modern english" /\
  classify_by_year (-1) = "unknown".
Proof.
  split; [|repeat split].
  intros y. unfold classify_by_year.
  destruct (Z.geb_spec y 1800) as [H1 | H1].
  - repeat split; intros; try reflexivity; try discriminate; lia.
  - destruct (Z.gtb_spec y 1450) as [H2 | H2]; destruct (Z.ltb_spec y 1800) as [H3 | H3];
      simpl; repeat split; intros; try reflexivity; try discriminate; lia.
Qed.

(** C2.  When the first-known-use text contains a standalone run of 3 or 4
    decimal digits, bounded by word boundaries, [extract_year] returns the
    value of the leftmost such run with [is_accurate = True] (and prints
    nothing).  Nothing is assumed about century phrases: the result is
    the same whether or not the text has one. *)
Theorem literal_year_takes_precedence soup word w text pre ds post :
  first_known_text soup = Some text ->
  standalone_year (Py.chars text) pre ds post ->
  exists pre0 ds0 post0,
    standalone_year (Py.chars text) pre0 ds0 post0 /\
    (forall pre' ds' post',
        standalone_year (Py.chars text) pre' ds' post' ->
        (List.length pre0 <= List.length pre')%nat /\
        (List.length pre' = List.length pre0 -> ds' = ds0)) /\
    extract_year soup word w = (inr (Py.digits_value ds0, true), w).
Proof.
  intros Ht Hs. pose proof (YearFacts.extract_year_cases soup word w) as H.
  rewrite Ht in H.
  destruct H as [(pre0 & ds0 & post0 & Hs0 & Hleft & E) | [(Hno & _) | (Hno & _)]].
  - exists pre0, ds0, post0. split; [assumption|]. split; [|assumption].
    intros pre' ds' post' Hs'. split.
    + eapply Hleft; eauto.
    + intros L. symmetry in L.
      now destruct (Leftmost.standalone_year_unique Hs0 Hs' L) as (_ & -> & _).
  - destruct (Hno _ _ _ Hs).
  - destruct (Hno _ _ _ Hs).
Qed.

(** A page whose first-known-use text is "1590, 13th century" gives
    (1590, True). *)
Lemma literal_year_takes_precedence_witness :
  exists pre0 ds0 post0,
    standalone_year (Py.chars "1590, 13th century") pre0 ds0 post0 /\
    (forall pre' ds' post',
        standalone_year (Py.chars "1590, 13th century") pre' ds' post' ->
        (List.length pre0 <= List.length pre')%nat /\
        (List.length pre' = List.length pre0 -> ds' = ds0)) /\
    extract_year (page "1590, 13th century" ["et"] []) "sonnet" empty_world
    = (inr (Py.digits_value ds0, true), empty_world).
Proof.
  apply (@literal_year_takes_precedence
           (page "1590, 13th century" ["et"] []) "sonnet" empty_world
           "1590, 13th century" [] (Py.chars "1590") (Py.chars ", 13th century")).
  - reflexivity.
  - unfold standalone_year, all_digits, boundary. simpl.
    repeat split; try reflexivity. now right.
Defined.


(** C3, as the specification words it, fails: the pattern asks for a word
    boundary before the digits and after "century", the wording does not.
    In "x13th century" the phrase "13th century" is present and there is
    no standalone year, yet [extract_year] returns (-1, False). *)
Lemma century_phrase_without_boundary :
  ~ century_phrase_gives_century (page "x13th century" ["et"] []) "sonnet" empty_world.
Proof.
  intros H. specialize (H "x13th century" eq_refl).
  destruct H as (pre & ds & _ & E).
  - apply Leftmost.no_standalone_year_by_search. reflexivity.
  - exists (Py.chars "x"), (Py.chars "13"),
      (Py.chars "th"), (Py.chars " "), (Py.chars "century"), [].
    unfold century_parts, all_digits, ordinal_suffix, same_ic. simpl.
    repeat split; try reflexivity; try discriminate; auto.
  - assert (Hv : value (extract_year (page "x13th century" ["et"] []) "sonnet" empty_world)
                 = inr (-1, false)) by reflexivity.
    rewrite Hv in E. injection E as E. lia.
Qed.

(** C3, amended.  When the first-known-use text has no standalone year:
    if it contains a century phrase -- 1 or 2 digits, "st", "nd", "rd" or
    "th", whitespace, "century", in any case -- with a word boundary
    before the digits and after "century", [extract_year] returns
    [(c - 1) * 100] for the number [c] of the leftmost such phrase, with
    [is_accurate = False]; if it contains none, it returns (-1, False). *)
Theorem century_phrase_gives_start_year soup word w text :
  first_known_text soup = Some text ->
  no_standalone_year (Py.chars text) ->
  ((exists pre ds, century_match (Py.chars text) pre ds) ->
   exists pre0 ds0,
     century_match (Py.chars text) pre0 ds0 /\
     (forall pre' ds',
         century_match (Py.chars text) pre' ds' ->
         (List.length pre0 <= List.length pre')%nat /\
         (List.length pre' = List.length pre0 -> ds' = ds0)) /\
     value (extract_year soup word w) = inr ((Py.digits_value ds0 - 1) * 100, false)) /\
  ((forall pre ds, ~ century_match (Py.chars text) pre ds) ->
   value (extract_year soup word w) = inr (-1, false)).
Proof.
  intros Ht Hno. pose proof (YearFacts.extract_year_cases soup word w) as H.
  rewrite Ht in H.
  destruct H as [(pre0 & ds0 & post0 & Hs0 & _)
                | [(_ & pre0 & ds0 & Hm0 & Hleft & E) | (_ & Hnone & E)]].
  - destruct (Hno _ _ _ Hs0).
  - split.
    + intros _. exists pre0, ds0. split; [assumption|]. split; [|now rewrite E].
      intros pre' ds' Hm'. split.
      * eapply Hleft; eauto.
      * intros L. symmetry in L.
        now destruct (Leftmost.century_match_unique Hm0 Hm' L) as (_ & ->).
    + intros Hnone. destruct (Hnone _ _ Hm0).
  - split.
    + intros (pre & ds & Hm). destruct (Hnone _ _ Hm).
    + intros _. now rewrite E.
Qed.

(** Pages whose first-known-use texts are "13th century" and "21st
    century" give (1200, False) and (2000, False). *)
Lemma century_phrase_gives_start_year_witness :
  value (extract_year (page "13th century" ["et"] []) "sonnet" empty_world)
  = inr (1200, false) /\
  value (extract_year (page "21st century" ["et"] []) "sonnet" empty_world)
  = inr (2000, false).
Proof.
  assert (N13 : no_standalone_year (Py.chars "13th century"))
    by (apply Leftmost.no_standalone_year_by_search; reflexivity).
  assert (N21 : no_standalone_year (Py.chars "21st century"))
    by (apply Leftmost.no_standalone_year_by_search; reflexivity).
  assert (M13 : century_match (Py.chars "13th century") [] (Py.chars "13")).
  { exists (Py.chars "th"), (Py.chars " "), (Py.chars "century"), [].
    unfold century_parts, all_digits, ordinal_suffix, same_ic, boundary. simpl.
    repeat split; try reflexivity; try discriminate; auto. }
  assert (M21 : century_match (Py.chars "21st century") [] (Py.chars "21")).
  { exists (Py.chars "st"), (Py.chars " "), (Py.chars "century"), [].
    unfold century_parts, all_digits, ordinal_suffix, same_ic, boundary. simpl.
    repeat split; try reflexivity; try discriminate; auto. }
  split.
  - destruct (@century_phrase_gives_start_year
                (page "13th century" ["et"] []) "sonnet" empty_world
                "13th century" eq_refl N13) as [H _].
    destruct (H (ex_intro _ [] (ex_intro _ _ M13))) as (pre0 & ds0 & Hm & Hleft & E).
    destruct (Hleft _ _ M13) as [L U].
    assert (L0 : List.length (@nil ascii) = List.length pre0) by (simpl in *; lia).
    rewrite <- (U L0) in E. exact E.
  - destruct (@century_phrase_gives_start_year
                (page "21st century" ["et"] []) "sonnet" empty_world
                "21st century" eq_refl N21) as [H _].
    destruct (H (ex_intro _ [] (ex_intro _ _ M21))) as (pre0 & ds0 & Hm & Hleft & E).
    destruct (Hleft _ _ M21) as [L U].
    assert (L0 : List.length (@nil ascii) = List.length pre0) by (simpl in *; lia).
    rewrite <- (U L0) in E. exact E.
Defined.

(* ===================================================================== *)
(** ** The fetch *)
(* ===================================================================== *)

Module FetchFacts.

(** [fetch_word_data] always returns a triple, writes no row, and pairs a
    year of -1 with [False]. *)
Lemma fetch_word_data_returns network html_parser word w :
  exists year etym is_accurate w',
    fetch_word_data network html_parser word w = (inr (year, etym, is_accurate), w') /\
    (year = -1 -> is_accurate = false) /\
    outfile w' = outfile w.
Proof.
  unfold fetch_word_data, bind, try_except, requests_get, raise_for_status, raise, ret,
    print_err.
  destruct (network (requests_sent w) _ 10) as [e | r]; simpl.
  - eexists _, _, _, _. split; [reflexivity|]. simpl. auto.
  - destruct ((400 <=? status_code r) && (status_code r <? 600)); simpl.
    + eexists _, _, _, _. split; [reflexivity|]. simpl. auto.
    + match goal with
      | |- context [extract_year ?s ?wd ?w0] =>
          destruct (YearResults.extract_year_returns s wd w0)
            as (year & acc & msgs & E & R); rewrite E
      end.
      eexists _, _, _, _. split; [reflexivity|]. simpl. split; [|reflexivity].
      intros Hy. destruct R as [[_ R] | [[R _] | [R _]]]; [lia | exact R | exact R].
Qed.

End FetchFacts.

(** C6.  [extract_year] always returns a pair, and a year of -1 comes with
    [is_accurate = False]; so does the triple of [fetch_word_data],
    whether the fetch fails or not. *)
Theorem sentinel_year_is_never_accurate :
  (forall soup word w,
      exists year is_accurate,
        value (extract_year soup word w) = inr (year, is_accurate) /\
        (year = -1 -> is_accurate = false)) /\
  (forall network html_parser word w,
      exists year etym is_accurate,
        value (fetch_word_data network html_parser word w)
        = inr (year, etym, is_accurate) /\
        (year = -1 -> is_accurate = false)).
Proof.
  split.
  - intros soup word w.
    destruct (YearResults.extract_year_returns soup word w)
      as (year & acc & msgs & E & R).
    exists year, acc. rewrite E. split; [reflexivity|].
    intros Hy. destruct R as [[_ R] | [[R _] | [R _]]]; [lia | exact R | exact R].
  - intros network html_parser word w.
    destruct (FetchFacts.fetch_word_data_returns network html_parser word w)
      as (year & etym & acc & w' & E & R & _).
    exists year, etym, acc. rewrite E. auto.
Qed.

(** C10, as stated, fails: a run of 3 or 4 digits may start with zeros.
    For the first-known-use text "007" [extract_year] returns (7, True). *)
Lemma accurate_year_below_100 :
  ~ accurate_year_has_no_leading_zero (page "007" ["et"] []) "sonnet" empty_world.
Proof.
  intros H. specialize (H 7 eq_refl). lia.
Qed.

(** C10, amended.  [extract_year] always returns a pair; when
    [is_accurate] is [True] the year lies between 0 and 9999, and when it
    is [False] and the year is not negative, the year is a multiple of
    100. *)
Theorem accurate_year_range soup word w :
  exists year is_accurate,
    value (extract_year soup word w) = inr (year, is_accurate) /\
    (is_accurate = true -> 0 <= year <= 9999) /\
    (is_accurate = false -> 0 <= year -> year mod 100 = 0).
Proof.
  destruct (YearResults.extract_year_returns soup word w)
    as (year & acc & msgs & E & R).
  exists year, acc. rewrite E. split; [reflexivity|].
  destruct R as [[-> R] | [[-> ->] | [-> (c & R & ->)]]]; split; intros; try discriminate;
    try lia.
  apply Z.mod_mul. lia.
Qed.


(* ===================================================================== *)
(** ** The claims about the etymology *)
(* ===================================================================== *)

Module EtymologyFacts.

Lemma truthy_false s : Py.truthy s = false <-> s = "".
Proof. destruct s; simpl; split; intros; try reflexivity; discriminate. Qed.

Lemma find_same (A : Type) (f g : A -> bool) l :
  (forall x, f x = g x) -> List.find f l = List.find g l.
Proof.
  intros E. induction l as [|x l IH]; simpl; [reflexivity|].
  now rewrite E, IH.
Qed.

Lemma eqb_flip s t : String.eqb s t = String.eqb t s.
Proof. apply String.eqb_sym. Qed.

(** Tokens that joined by spaces spell "et" are the one token "et". *)
Lemma join_is_et tokens :
  Py.join " " tokens = "et" -> existsb (String.eqb "et") tokens = true.
Proof.
  unfold Py.join. destruct tokens as [|x [|y l]]; simpl.
  - discriminate.
  - intros ->. reflexivity.
  - destruct x as [|a [|b [|c x]]]; simpl; intros H; try discriminate;
      injection H as _ H; try discriminate; injection H as _ H; discriminate.
Qed.

(** [find('p', class_='et')] tests for the token "et" among the class
    tokens of a [p] tag. *)
Lemma matches_tag_et n :
  Bs4.matches_tag "p" (Bs4.ByString "et") n = has_class_token "et" n.
Proof.
  destruct n as [name [tokens|] contents | s | s | s];
    unfold Bs4.matches_tag, Bs4.matches_class, Bs4.matches_value, has_class_token;
    try reflexivity.
  - f_equal.
    assert (E : existsb (fun t => String.eqb t "et") tokens
                = existsb (String.eqb "et") tokens).
    { induction tokens as [|t l IH]; [reflexivity|].
      cbn [existsb]. now rewrite IH, eqb_flip. }
    rewrite E.
    destruct (existsb (String.eqb "et") tokens) eqn:X; [reflexivity|].
    rewrite orb_false_l.
    destruct (String.eqb_spec (Py.join " " tokens) "et") as [J | J]; [|reflexivity].
    apply join_is_et in J. congruence.
  - now rewrite andb_false_r.
Qed.

Lemma extract_etymology_cases soup year :
  extract_etymology soup year =
    match etymology_paragraph soup with
    | Some p => if Py.truthy (normalized_text p) then normalized_text p
                else classify_by_year year
    | None => classify_by_year year
    end.
Proof.
  unfold extract_etymology, etymology_paragraph, etymology_region, normalized_text.
  destruct (Bs4.find soup "div" _) as [etym_div|]; [|reflexivity].
  destruct (Bs4.find etym_div "p" _) as [etym_p|]; reflexivity.
Qed.

End EtymologyFacts.

(** C7, as stated, fails: a paragraph whose class attribute is "et foo" is
    selected, and its text is returned. *)
Lemma paragraph_with_more_tokens_selected :
  ~ paragraph_class_is_exactly_et
      (page "1590" ["et"; "foo"] [Bs4.NavigableString "Middle English"]).
Proof.
  intros H.
  specialize (H "p" (Some ["et"; "foo"]) [Bs4.NavigableString "Middle English"] eq_refl).
  discriminate.
Qed.

(** C7, amended.  Within the etymology region, [extract_etymology] selects
    the first [p] tag that has the token "et" among its class tokens --
    equality with a whole token, not containment in one; other tokens
    may stand beside it. *)
Theorem paragraph_selected_by_token soup :
  etymology_paragraph soup =
    match etymology_region soup with
    | Some region => List.find (has_class_token "et") (Bs4.descendants region)
    | None => None
    end /\
  (forall name class_ contents,
      etymology_paragraph soup = Some (Bs4.Tag name class_ contents) ->
      name = "p" /\ exists tokens, class_ = Some tokens /\ In "et" tokens).
Proof.
  assert (E : etymology_paragraph soup =
              match etymology_region soup with
              | Some region => List.find (has_class_token "et") (Bs4.descendants region)
              | None => None
              end).
  { unfold etymology_paragraph. destruct (etymology_region soup) as [region|];
      [|reflexivity].
    unfold Bs4.find. apply EtymologyFacts.find_same, EtymologyFacts.matches_tag_et. }
  split; [exact E|].
  intros name class_ contents H. rewrite E in H.
  destruct (etymology_region soup) as [region|]; [|discriminate].
  apply find_some in H. destruct H as [_ H]. unfold has_class_token in H.
  destruct class_ as [tokens|]; [|discriminate].
  apply andb_true_iff in H. destruct H as [Hn Ht].
  apply String.eqb_eq in Hn. split; [assumption|].
  exists tokens. split; [reflexivity|].
  apply existsb_exists in Ht. destruct Ht as (t & Hin & Ht).
  apply String.eqb_eq in Ht. now subst.
Qed.


(* ===================================================================== *)
(** ** The claims about the run *)
(* ===================================================================== *)

(** C5, as stated, fails: a response whose status is neither a 2xx nor
    from 400 to 599 does not make [raise_for_status] raise, and its page
    is parsed.  With the status 304 and a page that gives the year 1590,
    [fetch_word_data] returns (1590, "Middle English", True). *)
Lemma not_modified_response_is_parsed :
  ~ unresolved_unless_2xx
      (fun _ _ _ => inr (Response 304 "Not Modified"))
      (fun _ => page "1590" ["et"] [Bs4.NavigableString "Middle English"])
      "Sonnet" empty_world.
Proof.
  intros H.
  assert (F : fails_or_not_2xx (inr (Response 304 "Not Modified"))) by (simpl; lia).
  specialize (H F). discriminate.
Qed.

(** C5, amended.  When the fetch of a word fails as the code tests it --
    [requests.get] raises (a transport error, a timeout), or the response
    has a status from 400 to 599, for which [raise_for_status] raises --
    [fetch_word_data] returns (-1, "unknown", False) and prints the one
    line that reports the failure.  This holds for every parser: no page is
    parsed and nothing is extracted. *)
Theorem failed_fetch_is_unresolved network html_parser word w e :
  fetch_fails
    (network (requests_sent w)
       ("https://www.merriam-webster.com/dictionary/" ++ Py.lower word)%string 10) e ->
  fetch_word_data network html_parser word w
  = (inr (-1, "unknown", false),
     World (stdout w) (stderr w ++ [Error_fetching (Py.lower word) e]) (outfile w)
       (S (requests_sent w))).
Proof.
  unfold fetch_fails, fetch_word_data, bind, try_except, requests_get, raise_for_status,
    raise, ret, print_err.
  destruct (network (requests_sent w) _ 10) as [msg | r]; simpl.
  - intros ->. reflexivity.
  - intros [[H1 H2] ->].
    apply Z.leb_le in H1. apply Z.ltb_lt in H2. rewrite H1, H2. reflexivity.
Qed.

(** A 404 response: the page that came with it is not looked at. *)
Lemma failed_fetch_is_unresolved_witness :
  fetch_word_data
    (fun _ _ _ => inr (Response 404 "Not Found"))
    (fun _ => page "1590" ["et"] [Bs4.NavigableString "Middle English"])
    "Sonnet" empty_world
  = (inr (-1, "unknown", false),
     World [] [Error_fetching "sonnet" (HTTPError 404)] [] 1).
Proof.
  apply (@failed_fetch_is_unresolved
           (fun _ _ _ => inr (Response 404 "Not Found"))
           (fun _ => page "1590" ["et"] [Bs4.NavigableString "Middle English"])
           "Sonnet" empty_world (HTTPError 404)).
  simpl. split; [lia | reflexivity].
Defined.

Module RunFacts.

Lemma process_short_row network html_parser row w :
  kept row = false ->
  process_row network html_parser row w
  = (inr tt, with_stderr w [Skipping_malformed_row row]).
Proof.
  unfold kept, process_row. intros K.
  apply Nat.leb_gt in K. apply Nat.ltb_lt in K. now rewrite K.
Qed.

Lemma process_kept_row network html_parser row w :
  kept row = true ->
  exists w' out,
    process_row network html_parser row w = (inr tt, w') /\
    outfile w' = outfile w ++ [out] /\
    enriched row out.
Proof.
  unfold kept, process_row. intros K. apply Nat.leb_le in K.
  assert (K' : (List.length row <? 3)%nat = false) by (apply Nat.ltb_ge; lia).
  rewrite K'.
  destruct (nth_error row 2) as [word|] eqn:N.
  2:{ apply nth_error_None in N. lia. }
  unfold bind, ret, print. cbn [fst snd].
  match goal with
  | |- context [fetch_word_data _ _ _ ?w0] =>
      destruct (FetchFacts.fetch_word_data_returns network html_parser word w0)
        as (year & etym & acc & w1 & E & _ & O); rewrite E
  end.
  unfold writerow. eexists _, _. split; [reflexivity|]. simpl.
  split; [now rewrite O|]. now exists year, etym, acc.
Qed.

(** The loop writes one enriched row for each kept row, in order, and
    none for the others. *)
Lemma for_rows_spec network html_parser rows :
  forall w,
  exists w' outs,
    for_rows network html_parser rows w = (inr tt, w') /\
    outfile w' = outfile w ++ outs /\
    Forall2 enriched (filter kept rows) outs.
Proof.
  induction rows as [|row rows IH]; intros w; simpl.
  - exists w, []. rewrite app_nil_r. repeat split. constructor.
  - unfold bind. destruct (kept row) eqn:K.
    + destruct (process_kept_row network html_parser row w K)
        as (w1 & out & E & O & En). rewrite E.
      destruct (IH w1) as (w2 & outs & E2 & O2 & F2). rewrite E2.
      exists w2, (out :: outs). split; [reflexivity|]. split.
      * rewrite O2, O. now rewrite <- app_assoc.
      * now constructor.
    + rewrite (process_short_row network html_parser row w K).
      destruct (IH (with_stderr w [Skipping_malformed_row row]))
        as (w2 & outs & E2 & O2 & F2). rewrite E2.
      exists w2, outs. repeat split; assumption.
Qed.

End RunFacts.

(** C8.  [main] never fails on a table with a header.  A row with fewer
    than 3 fields only gets a line on the error stream; the rows written
    after the header are, in order, the rows with at least 3 fields, each
    with exactly three values appended -- so a short row has no output
    row, and the rows after it are still processed. *)
Theorem short_rows_are_dropped network html_parser :
  (forall row w,
      (List.length row < 3)%nat ->
      process_row network html_parser row w
      = (inr tt, with_stderr w [Skipping_malformed_row row])) /\
  (forall header rows w,
      exists w' outs,
        main network html_parser (header :: rows) w = (inr tt, w') /\
        outfile w' =
          (map Str header ++ [Str "year_used"; Str "etym"; Str "year_accurate"]) :: outs /\
        Forall2 enriched (filter kept rows) outs).
Proof.
  split.
  - intros row w L. apply RunFacts.process_short_row.
    unfold kept. apply Nat.leb_gt. exact L.
  - intros header rows w. unfold main, bind, open_w, writerow, print. cbn [fst snd].
    match goal with
    | |- context [for_rows _ _ _ ?w0] =>
        destruct (RunFacts.for_rows_spec network html_parser rows w0)
          as (w1 & outs & E & O & F); rewrite E
    end.
    eexists _, outs. split; [reflexivity|]. simpl. split; [|assumption].
    rewrite O. reflexivity.
Qed.

Module WorldFacts.

(** The result of [extract_year] and the lines it prints do not depend on
    the world it runs in. *)
Lemma extract_year_any_world soup word w :
  extract_year soup word w
  = (value (extract_year soup word empty_world),
     with_stderr w (stderr (after (extract_year soup word empty_world)))).
Proof.
  unfold extract_year.
  destruct (Bs4.find soup "div" _) as [first_known_div|]; [|reflexivity].
  destruct (Bs4.find first_known_div "p" _) as [year_p|]; [|reflexivity].
  destruct (Re.search false Re.year_re _) as [ym|].
  - unfold bind, int_group1, int, raise, ret, value, after.
    destruct (Re.group1 ym) as [[|c ds]|]; cbn [fst snd];
      try (now rewrite YearResults.with_stderr_nil).
    destruct (forallb Py.isdecimal (c :: ds)); cbn [fst snd];
      now rewrite YearResults.with_stderr_nil.
  - destruct (Re.search true Re.century_re _) as [cm|]; [|reflexivity].
    unfold bind, int_group1, int, raise, ret, value, after.
    destruct (Re.group1 cm) as [[|c ds]|]; cbn [fst snd];
      try (now rewrite YearResults.with_stderr_nil).
    destruct (forallb Py.isdecimal (c :: ds)); cbn [fst snd];
      [reflexivity | now rewrite YearResults.with_stderr_nil].
Qed.

End WorldFacts.

(* ===================================================================== *)
(** ** Worked examples *)
(* ===================================================================== *)

Module Examples.

(** A year after "circa". *)
Example year_after_circa :
  extract_year (page "circa 1590" ["et"] []) "sonnet" empty_world
  = (inr (1590, true), empty_world).
Proof. reflexivity. Qed.

(** An underscore is a word character: "1590_" holds no standalone year. *)
Example year_before_underscore :
  value (extract_year (page "1590_" ["et"] []) "sonnet" empty_world) = inr (-1, false).
Proof. reflexivity. Qed.

(** The century pattern ignores case and takes any run of whitespace. *)
Example century_in_capitals :
  extract_year (page "in the 21ST   CENTURY." ["et"] []) "sonnet" empty_world
  = (inr (2000, false), with_stderr empty_world [Found_century "sonnet" 21 2000]).
Proof. reflexivity. Qed.

(** The text of the etymology paragraph is returned whatever the year. *)
Example etymology_text_returned year :
  extract_etymology
    (page "1590" ["et"] [Bs4.NavigableString "Middle English, from Old French"]) year
  = "Middle English, from Old French".
Proof. reflexivity. Qed.

(** Strings are stripped one by one and joined by a space; whitespace
    inside a string stays. *)
Example etymology_text_stripped :
  extract_etymology
    (page "1590" ["et"]
       [Bs4.NavigableString "  from  Latin ";
        Bs4.Tag "em" None [Bs4.NavigableString "sonus"];
        Bs4.Comment "note"; Bs4.NavigableString "   "]) 0
  = "from  Latin sonus".
Proof. reflexivity. Qed.

(** Without an etymology region the year decides. *)
Example no_etymology_region :
  extract_etymology (Bs4.Tag "[document]" None []) 1900 = "modern english" /\
  extract_etymology (Bs4.Tag "[document]" None []) (-1) = "unknown".
Proof. split; reflexivity. Qed.

(** A class token that only contains "et" does not select the paragraph. *)
Example longer_token_not_selected :
  extract_etymology
    (page "1590" ["etx"; "bet"] [Bs4.NavigableString "Middle English"]) 1590
  = "early modern english".
Proof. reflexivity. Qed.

(** A response with a status below 400 is parsed, also when the status is
    not 200. *)
Example redirect_status_is_parsed :
  value (fetch_word_data
           (fun _ _ _ => inr (Response 300 "Multiple Choices"))
           (fun _ => page "1590" ["et"] [Bs4.NavigableString "Middle English"])
           "Sonnet" empty_world)
  = inr (1590, "Middle English", true).
Proof. reflexivity. Qed.

(** A run over a header, a row for "sonnet" whose page says "14th century"
    and has an empty etymology paragraph, and a row of two fields. *)
Example run_over_three_rows :
  main (fun _ _ _ => inr (Response 200 "<html>"))
       (fun _ => page "14th century" ["et"] [])
       [["date"; "number"; "word"]; ["x"; "y"; "sonnet"]; ["a"; "b"]] empty_world
  = (inr tt,
     World [Processing "sonnet"; Processing_complete OUTPUT]
           [Found_century "sonnet" 14 1300; Skipping_malformed_row ["a"; "b"]]
           [[Str "date"; Str "number"; Str "word";
             Str "year_used"; Str "etym"; Str "year_accurate"];
            [Str "x"; Str "y"; Str "sonnet"; Int 1300; Str "unknown"; Boolean false]]
           1).
Proof. reflexivity. Qed.

End Examples.


(* ===================================================================== *)
(** ** The run as a whole *)
(* ===================================================================== *)

Module FrameFacts.

(** What [fetch_word_data] does to the world: one request more, more lines
    on the error stream, nothing else. *)
Lemma fetch_word_data_frame network html_parser word w :
  exists year etym is_accurate msgs,
    fetch_word_data network html_parser word w
    = (inr (year, etym, is_accurate),
       World (stdout w) (stderr w ++ msgs) (outfile w) (S (requests_sent w))).
Proof.
  unfold fetch_word_data, bind, try_except, requests_get, raise_for_status, raise, ret,
    print_err.
  destruct (network (requests_sent w) _ 10) as [e | r]; simpl.
  - eexists _, _, _, _. reflexivity.
  - destruct ((400 <=? status_code r) && (status_code r <? 600)); simpl.
    + eexists _, _, _, _. reflexivity.
    + match goal with
      | |- context [extract_year ?s ?wd ?w0] =>
          destruct (YearResults.extract_year_returns s wd w0)
            as (year & acc & msgs & E & _); rewrite E
      end.
      eexists _, _, _, msgs. reflexivity.
Qed.

Lemma process_kept_row_frame network html_parser row w :
  kept row = true ->
  exists year etym is_accurate msgs,
    value (fetch_word_data network html_parser (word_of row)
             (World (stdout w ++ [Processing (word_of row)]) (stderr w) (outfile w)
                (requests_sent w)))
    = inr (year, etym, is_accurate) /\
    process_row network html_parser row w
    = (inr tt,
       World (stdout w ++ [Processing (word_of row)]) (stderr w ++ msgs)
         (outfile w ++ [map Str row ++ [Int year; Str etym; Boolean is_accurate]])
         (S (requests_sent w))).
Proof.
  unfold kept, process_row, word_of. intros K. apply Nat.leb_le in K.
  assert (K' : (List.length row <? 3)%nat = false) by (apply Nat.ltb_ge; lia).
  rewrite K'.
  destruct row as [|f1 [|f2 [|word row]]]; simpl in K; try lia.
  cbn [nth_error nth]. unfold bind, ret, print. cbn [fst snd].
  match goal with
  | |- context [fetch_word_data _ _ _ ?w0] =>
      destruct (fetch_word_data_frame network html_parser word w0)
        as (year & etym & acc & msgs & E); rewrite E
  end.
  exists year, etym, acc, msgs. split; reflexivity.
Qed.

(** The loop: a request and a line on the output stream for each kept
    row, in order; more lines on the error stream; more rows in OUTPUT. *)
Lemma for_rows_frame network html_parser rows :
  forall w,
  exists msgs outs,
    for_rows network html_parser rows w
    = (inr tt,
       World (stdout w ++ map Processing (map word_of (filter kept rows)))
         (stderr w ++ msgs) (outfile w ++ outs)
         (requests_sent w + List.length (filter kept rows))).
Proof.
  induction rows as [|row rows IH]; intros w; simpl.
  - exists [], []. unfold ret. rewrite !app_nil_r, Nat.add_0_r. now destruct w.
  - unfold bind. destruct (kept row) eqn:K.
    + destruct (process_kept_row_frame network html_parser row w K)
        as (year & etym & acc & msgs & _ & E). rewrite E.
      match goal with
      | |- context [for_rows _ _ _ ?w0] =>
          destruct (IH w0) as (msgs' & outs' & E'); rewrite E'
      end.
      eexists (msgs ++ msgs'), (_ :: outs'). simpl.
      rewrite <- !app_assoc. simpl. now rewrite Nat.add_succ_r.
    + rewrite (RunFacts.process_short_row network html_parser row w K).
      destruct (IH (with_stderr w [Skipping_malformed_row row])) as (msgs' & outs' & E').
      rewrite E'. exists (Skipping_malformed_row row :: msgs'), outs'. simpl.
      now rewrite <- app_assoc.
Qed.

Lemma main_frame network html_parser header rows w :
  exists msgs outs,
    main network html_parser (header :: rows) w
    = (inr tt,
       World (stdout w ++ map Processing (map word_of (filter kept rows))
                ++ [Processing_complete OUTPUT])
         (stderr w ++ msgs)
         ((map Str header ++ [Str "year_used"; Str "etym"; Str "year_accurate"]) :: outs)
         (requests_sent w + List.length (filter kept rows))).
Proof.
  unfold main, bind, open_w, writerow, print. cbn [fst snd].
  match goal with
  | |- context [for_rows _ _ _ ?w0] =>
      destruct (for_rows_frame network html_parser rows w0) as (msgs & outs & E);
        rewrite E
  end.
  exists msgs, outs. simpl. now rewrite <- app_assoc.
Qed.

(** With a steady network the result of [fetch_word_data] is the same in
    every world. *)
Lemma fetch_word_data_steady network html_parser word w :
  steady network ->
  value (fetch_word_data network html_parser word w)
  = value (fetch_word_data network html_parser word empty_world).
Proof.
  intros St.
  unfold fetch_word_data, bind, try_except, requests_get, raise_for_status, raise, ret,
    print_err.
  rewrite (St (requests_sent w) (requests_sent empty_world)).
  destruct (network (requests_sent empty_world) _ 10) as [e | r]; simpl; [reflexivity|].
  destruct ((400 <=? status_code r) && (status_code r <? 600)); simpl; [reflexivity|].
  match goal with
  | |- context [extract_year ?s ?wd ?w0] =>
      rewrite (WorldFacts.extract_year_any_world s wd w0)
  end.
  match goal with
  | |- _ = value (match extract_year ?s ?wd ?w0 with _ => _ end) =>
      rewrite (WorldFacts.extract_year_any_world s wd w0)
  end.
  destruct (value (extract_year _ _ empty_world)) as [e | [year acc]]; reflexivity.
Qed.

Lemma for_rows_steady network html_parser rows :
  steady network ->
  forall w,
    outfile (after (for_rows network html_parser rows w))
    = outfile w
      ++ map (fun row => map Str row ++ resolved network html_parser (word_of row))
           (filter kept rows).
Proof.
  intros St. induction rows as [|row rows IH]; intros w; simpl.
  - unfold after, ret. simpl. now rewrite app_nil_r.
  - unfold bind. destruct (kept row) eqn:K.
    + pose proof (process_kept_row_frame network html_parser row w K)
        as (year & etym & acc & msgs & V & E).
      assert (R : resolved network html_parser (word_of row)
                  = [Int year; Str etym; Boolean acc]).
      { unfold resolved.
        rewrite (fetch_word_data_steady html_parser (word_of row) _ St) in V.
        now rewrite V. }
      rewrite E. specialize (IH (World (stdout w ++ [Processing (word_of row)])
                                   (stderr w ++ msgs)
                                   (outfile w ++ [map Str row ++ [Int year; Str etym; Boolean acc]])
                                   (S (requests_sent w)))).
      unfold after in *.
      rewrite IH. simpl. rewrite R. now rewrite <- app_assoc.
    + rewrite (RunFacts.process_short_row network html_parser row w K).
      apply (IH (with_stderr w [Skipping_malformed_row row])).
Qed.

End FrameFacts.


(** X3.  What a run prints on the output stream: one "Processing" line for
    each row with at least 3 fields, in the order of the table, with the
    third field as it stands in the table (not lower-cased), and the
    closing line after them.  The error stream only grows. *)
Theorem progress_lines_of_a_run network html_parser header rows w :
  stdout (after (main network html_parser (header :: rows) w))
  = stdout w ++ map Processing (map word_of (filter kept rows))
      ++ [Processing_complete OUTPUT] /\
  exists msgs,
    stderr (after (main network html_parser (header :: rows) w)) = stderr w ++ msgs.
Proof.
  destruct (FrameFacts.main_frame network html_parser header rows w)
    as (msgs & outs & E). rewrite E. split; [reflexivity|]. now exists msgs.
Qed.

(** X4.  With a network whose answers do not change during the run, every
    row written depends on its own input row only: OUTPUT holds the header
    row and then, for each row with at least 3 fields, in order, the row
    followed by the three values [fetch_word_data] gives for its third
    field.  Short rows and failed fetches do not touch the other rows. *)
Theorem rows_are_enriched_independently network html_parser header rows w :
  steady network ->
  outfile (after (main network html_parser (header :: rows) w))
  = (map Str header ++ [Str "year_used"; Str "etym"; Str "year_accurate"])
    :: map (fun row => map Str row ++ resolved network html_parser (word_of row))
         (filter kept rows).
Proof.
  intros St. unfold main, bind, open_w, writerow, print, after. cbn [fst snd].
  match goal with
  | |- context [for_rows _ _ _ ?w0] =>
      pose proof (FrameFacts.for_rows_steady html_parser rows St w0) as O;
        destruct (FrameFacts.for_rows_frame network html_parser rows w0)
          as (msgs & outs & E)
  end.
  rewrite E in *. unfold after in O. simpl in *. exact O.
Qed.

(** A run over a row for "sonnet", a short row and a row for "Ode", with
    a network that always answers 404. *)
Lemma rows_are_enriched_independently_witness :
  outfile (after (main (fun _ _ _ => inr (Response 404 "Not Found"))
                       (fun _ => page "1590" ["et"] [])
                       [["date"; "number"; "word"];
                        ["x"; "y"; "sonnet"]; ["a"; "b"]; ["u"; "v"; "Ode"; "z"]]
                       empty_world))
  = [[Str "date"; Str "number"; Str "word";
      Str "year_used"; Str "etym"; Str "year_accurate"];
     [Str "x"; Str "y"; Str "sonnet"; Int (-1); Str "unknown"; Boolean false];
     [Str "u"; Str "v"; Str "Ode"; Str "z"; Int (-1); Str "unknown"; Boolean false]].
Proof.
  apply (@rows_are_enriched_independently
           (fun _ _ _ => inr (Response 404 "Not Found"))
           (fun _ => page "1590" ["et"] [])
           ["date"; "number"; "word"]
           [["x"; "y"; "sonnet"]; ["a"; "b"]; ["u"; "v"; "Ode"; "z"]]
           empty_world).
  unfold steady. reflexivity.
Defined.


(* ===================================================================== *)
(** ** Lookups by class *)
(* ===================================================================== *)

Module ClassFacts.

Lemma chars_append s1 s2 :
  Py.chars (s1 ++ s2)%string = Py.chars s1 ++ Py.chars s2.
Proof.
  unfold Py.chars. induction s1 as [|c s1 IH]; simpl; [reflexivity|]. now rewrite IH.
Qed.

(** A text without [c] starts a text continued by [c] only if it starts
    the part before [c]. *)
Lemma starts_with_before n c :
  ~ In c n ->
  forall a b, Py.starts_with n (a ++ c :: b) = Py.starts_with n a.
Proof.
  induction n as [|y n IH]; intros N a b.
  - now destruct a.
  - destruct a as [|x a]; simpl.
    + destruct (Ascii.eqb_spec y c) as [-> | _]; [|reflexivity].
      exfalso. apply N. now left.
    + rewrite IH; [reflexivity|]. intros H. apply N. now right.
Qed.

Lemma contains_around n c :
  n <> [] -> ~ In c n ->
  forall a b,
    Py.contains_chars n (a ++ c :: b)
    = Py.contains_chars n a || Py.contains_chars n b.
Proof.
  intros Ne N a b. induction a as [|x a IH].
  - pose proof (@starts_with_before n c N [] b) as S0. cbn [app] in S0.
    cbn [app Py.contains_chars]. rewrite S0.
    destruct n; [congruence|]. reflexivity.
  - pose proof (@starts_with_before n c N (x :: a) b) as S1. cbn [app] in S1.
    cbn [app Py.contains_chars]. rewrite IH, S1. now rewrite orb_assoc.
Qed.

(** A text without spaces lies in the joined class value exactly when it
    lies in one of the tokens. *)
Lemma contains_join needle tokens :
  Py.chars needle <> [] -> ~ In " "%char (Py.chars needle) ->
  Py.contains needle (Py.join " " tokens) = existsb (Py.contains needle) tokens.
Proof.
  intros Ne N. unfold Py.contains, Py.join.
  induction tokens as [|t l IH].
  - simpl. destruct (Py.chars needle); [congruence|]. reflexivity.
  - destruct l as [|t' l].
    + simpl. now rewrite orb_false_r.
    + change (String.concat " " (t :: t' :: l))
        with (t ++ " " ++ String.concat " " (t' :: l))%string.
      rewrite chars_append.
      change (Py.chars (" " ++ String.concat " " (t' :: l))%string)
        with (" "%char :: Py.chars (String.concat " " (t' :: l))).
      rewrite (@contains_around _ _ Ne N), IH. reflexivity.
Qed.

Lemma contains_truthy needle s :
  Py.chars needle <> [] -> Py.contains needle s = true -> Py.truthy s = true.
Proof.
  unfold Py.contains. intros Ne H. destruct s; [|reflexivity].
  simpl in H. destruct (Py.chars needle); [congruence | discriminate].
Qed.

(** The test [lambda x: x and needle in x] on a class attribute. *)
Lemma class_has_needle needle class_ :
  Py.chars needle <> [] -> ~ In " "%char (Py.chars needle) ->
  Bs4.matches_class class_
    (Bs4.ByFunction (fun x =>
       match x with
       | Some x => Py.truthy x && Py.contains needle x
       | None => false
       end))
  = token_contains needle class_.
Proof.
  intros Ne N. destruct class_ as [tokens|]; [|reflexivity].
  unfold Bs4.matches_class, Bs4.matches_value, token_contains.
  rewrite (@contains_join needle tokens Ne N).
  assert (E : forall s, Py.truthy s && Py.contains needle s = Py.contains needle s).
  { intros s. destruct (Py.contains needle s) eqn:C; [|apply andb_false_r].
    now rewrite (@contains_truthy needle s Ne C). }
  assert (E1 : existsb (fun t => Py.truthy t && Py.contains needle t) tokens
               = existsb (Py.contains needle) tokens).
  { induction tokens as [|t l IH]; [reflexivity|]. cbn [existsb]. now rewrite E, IH. }
  rewrite E1.
  destruct (existsb (Py.contains needle) tokens) eqn:X; [reflexivity|].
  rewrite orb_false_l. apply andb_false_r.
Qed.

(** The test [lambda x: x and 'ety-sl' in x and 'pb-3' in x]. *)
Lemma class_has_both class_ :
  Bs4.matches_class class_
    (Bs4.ByFunction (fun x =>
       match x with
       | Some x => Py.truthy x && Py.contains "ety-sl" x && Py.contains "pb-3" x
       | None => false
       end))
  = token_contains "ety-sl" class_ && token_contains "pb-3" class_.
Proof.
  destruct class_ as [tokens|]; [|reflexivity].
  unfold Bs4.matches_class, Bs4.matches_value, token_contains.
  assert (J1 : Py.contains "ety-sl" (Py.join " " tokens)
               = existsb (Py.contains "ety-sl") tokens).
  { apply contains_join; [discriminate|]. simpl. intuition discriminate. }
  assert (J2 : Py.contains "pb-3" (Py.join " " tokens)
               = existsb (Py.contains "pb-3") tokens).
  { apply contains_join; [discriminate|]. simpl. intuition discriminate. }
  rewrite <- J1, <- J2.
  assert (T : Py.contains "ety-sl" (Py.join " " tokens) = true ->
              Py.truthy (Py.join " " tokens) = true).
  { apply contains_truthy. discriminate. }
  match goal with
  | |- existsb ?f tokens || _ = _ => remember (existsb f tokens) as some_token eqn:X
  end.
  destruct some_token.
  - symmetry in X. apply existsb_exists in X. destruct X as (t & Hin & Ht).
    apply andb_true_iff in Ht. destruct Ht as [Ht Hb].
    apply andb_true_iff in Ht. destruct Ht as [_ Ha].
    assert (A : Py.contains "ety-sl" (Py.join " " tokens) = true)
      by (rewrite J1; apply existsb_exists; eauto).
    assert (B : Py.contains "pb-3" (Py.join " " tokens) = true)
      by (rewrite J2; apply existsb_exists; eauto).
    now rewrite A, B.
  - rewrite orb_false_l.
    destruct (Py.contains "ety-sl" (Py.join " " tokens)) eqn:A.
    + rewrite (T eq_refl). reflexivity.
    + now rewrite andb_false_r.
Qed.

Lemma find_div needle soup :
  Py.chars needle <> [] -> ~ In " "%char (Py.chars needle) ->
  Bs4.find soup "div"
    (Bs4.ByFunction (fun x =>
       match x with
       | Some x => Py.truthy x && Py.contains needle x
       | None => false
       end))
  = List.find (div_with needle) (Bs4.descendants soup).
Proof.
  intros Ne N. unfold Bs4.find. apply EtymologyFacts.find_same.
  intros [name class_ contents | s | s | s]; try reflexivity.
  unfold Bs4.matches_tag, div_with. now rewrite (@class_has_needle needle class_ Ne N).
Qed.

Lemma find_year_paragraph region :
  Bs4.find region "p"
    (Bs4.ByFunction (fun x =>
       match x with
       | Some x => Py.truthy x && Py.contains "ety-sl" x && Py.contains "pb-3" x
       | None => false
       end))
  = List.find year_paragraph (Bs4.descendants region).
Proof.
  unfold Bs4.find. apply EtymologyFacts.find_same.
  intros [name class_ contents | s | s | s]; try reflexivity.
  unfold Bs4.matches_tag, year_paragraph. now rewrite class_has_both.
Qed.

End ClassFacts.

(** X5.  Both regions are looked up by substring: the first-known-use
    region and the etymology region are the first [div], in document
    order, one of whose class tokens contains
    "first-known-content-section" resp. "etymology-content-section" --
    a token such as "etymology-content-section-2" counts, and a [div]
    without a class attribute never does. *)
Theorem regions_found_by_substring soup :
  Bs4.find soup "div"
    (Bs4.ByFunction (fun x =>
       match x with
       | Some x => Py.truthy x && Py.contains "first-known-content-section" x
       | None => false
       end))
  = List.find (div_with "first-known-content-section") (Bs4.descendants soup) /\
  etymology_region soup
  = List.find (div_with "etymology-content-section") (Bs4.descendants soup).
Proof.
  split; apply ClassFacts.find_div; try discriminate; simpl; intuition discriminate.
Qed.

(** X6.  The text [extract_year] reads is that of the first [p] below the
    first-known-use region with "ety-sl" in one class token and "pb-3" in
    one class token -- not necessarily whole tokens, not necessarily the
    same token.  Without such a region or such a paragraph [extract_year]
    returns (-1, False) and reports that no year was found. *)
Theorem year_paragraph_found_by_two_substrings soup :
  first_known_text soup
  = match List.find (div_with "first-known-content-section") (Bs4.descendants soup) with
    | Some region =>
        match List.find year_paragraph (Bs4.descendants region) with
        | Some p => Some (Bs4.get_text p)
        | None => None
        end
    | None => None
    end /\
  (first_known_text soup = None ->
   forall word w,
     extract_year soup word w = (inr (-1, false), with_stderr w [No_year_found word])).
Proof.
  split.
  - unfold first_known_text.
    rewrite (@ClassFacts.find_div "first-known-content-section" soup);
      [| discriminate | simpl; intuition discriminate].
    destruct (List.find _ (Bs4.descendants soup)) as [region|]; [|reflexivity].
    now rewrite ClassFacts.find_year_paragraph.
  - intros H word w. pose proof (YearFacts.extract_year_cases soup word w) as C.
    now rewrite H in C.
Qed.


(* ===================================================================== *)
(** ** The shape of the etymology *)
(* ===================================================================== *)

Module TextFacts.

Lemma chars_str l : Py.chars (Py.str l) = l.
Proof. apply list_ascii_of_string_of_list_ascii. Qed.

Lemma str_chars s : Py.str (Py.chars s) = s.
Proof. apply string_of_list_ascii_of_string. Qed.

Lemma truthy_chars s : Py.truthy s = true <-> Py.chars s <> [].
Proof. destruct s; simpl; split; intros; try discriminate; try reflexivity; congruence. Qed.

(** [lstrip] leaves no whitespace in front, and what it leaves is the end
    of its argument. *)
Lemma lstrip_head s :
  match Py.lstrip_chars s with
  | [] => True
  | c :: _ => Py.isspace c = false
  end.
Proof.
  induction s as [|c s IH]; simpl; [exact I|].
  destruct (Py.isspace c) eqn:E; [exact IH | exact E].
Qed.

Lemma lstrip_suffix s : exists p, s = p ++ Py.lstrip_chars s.
Proof.
  induction s as [|c s IH]; simpl.
  - now exists [].
  - destruct (Py.isspace c).
    + destruct IH as (p & E). exists (c :: p). simpl. now rewrite <- E.
    + now exists [].
Qed.

(** A stripped text is empty or has no whitespace at either end. *)
Lemma strip_trimmed s : Py.strip s = "" \/ trimmed (Py.strip s).
Proof.
  unfold Py.strip, trimmed. rewrite chars_str. unfold Py.strip_chars.
  set (u := Py.lstrip_chars (Py.chars s)).
  set (v := Py.lstrip_chars (rev u)).
  destruct v as [|c v'] eqn:Ev; [left; reflexivity | right].
  rewrite rev_involutive.
  pose proof (lstrip_head (rev u)) as Hv. fold v in Hv. rewrite Ev in Hv.
  split; [|exact Hv].
  destruct (lstrip_suffix (rev u)) as (p & E). fold v in E. rewrite Ev in E.
  assert (Eu : u = rev (c :: v') ++ rev p).
  { rewrite <- rev_app_distr, <- E. now rewrite rev_involutive. }
  pose proof (lstrip_head (Py.chars s)) as Hu. fold u in Hu. rewrite Eu in Hu.
  destruct (rev (c :: v')) as [|x r] eqn:Er.
  - apply (f_equal (@List.length ascii)) in Er. rewrite length_rev in Er. discriminate.
  - exact Hu.
Qed.

Lemma trimmed_join t rest :
  trimmed t -> trimmed rest -> trimmed (t ++ " " ++ rest)%string.
Proof.
  unfold trimmed. rewrite ClassFacts.chars_append.
  change (Py.chars (" " ++ rest)%string) with (" "%char :: Py.chars rest).
  intros [H1 _] [_ H2]. split.
  - destruct (Py.chars t); [contradiction | exact H1].
  - rewrite rev_app_distr. simpl rev. rewrite <- app_assoc.
    destruct (rev (Py.chars rest)); [contradiction | exact H2].
Qed.

(** Stripped, non-empty pieces joined by a space give a trimmed text. *)
Lemma join_trimmed pieces :
  pieces <> [] -> Forall trimmed pieces -> trimmed (Py.join " " pieces).
Proof.
  unfold Py.join. induction pieces as [|t l IH]; intros N F; [congruence|].
  inversion F as [|? ? Ht Fl]; subst.
  destruct l as [|t' l]; [exact Ht|].
  change (String.concat " " (t :: t' :: l))
    with (t ++ " " ++ String.concat " " (t' :: l))%string.
  apply trimmed_join; [exact Ht|]. apply IH; [discriminate | exact Fl].
Qed.

Lemma get_text_strip_trimmed p :
  Bs4.get_text_strip " " p = "" \/ trimmed (Bs4.get_text_strip " " p).
Proof.
  unfold Bs4.get_text_strip.
  set (pieces := filter Py.truthy (map Py.strip (Bs4.strings p))).
  assert (F : Forall trimmed pieces).
  { apply Forall_forall. intros x Hx. apply filter_In in Hx. destruct Hx as [Hin T].
    apply in_map_iff in Hin. destruct Hin as (s & <- & _).
    destruct (strip_trimmed s) as [E | H]; [|exact H]. rewrite E in T. discriminate. }
  destruct pieces as [|t l] eqn:Ep; [left; reflexivity | right].
  apply join_trimmed; [discriminate | exact F].
Qed.

Lemma label_trimmed year : trimmed (classify_by_year year).
Proof.
  unfold classify_by_year.
  destruct (year >=? 1800); [|destruct ((year >? 1450) && (year <? 1800))];
    split; reflexivity.
Qed.

Lemma lower_char_twice c : Py.lower_char (Py.lower_char c) = Py.lower_char c.
Proof. destruct c as [[] [] [] [] [] [] [] []]; reflexivity. Qed.

Lemma lower_twice s : Py.lower (Py.lower s) = Py.lower s.
Proof.
  unfold Py.lower. rewrite chars_str, map_map. f_equal.
  apply map_ext. intros c. apply lower_char_twice.
Qed.

End TextFacts.

(** X7.  The etymology [extract_etymology] returns is never empty and
    never starts or ends with whitespace: it is one of the three labels,
    or stripped strings of the paragraph joined by single spaces. *)
Theorem etymology_is_trimmed soup year : trimmed (extract_etymology soup year).
Proof.
  rewrite EtymologyFacts.extract_etymology_cases.
  destruct (etymology_paragraph soup) as [p|]; [|apply TextFacts.label_trimmed].
  unfold normalized_text.
  destruct (Py.truthy (Bs4.get_text_strip " " p)) eqn:T; [|apply TextFacts.label_trimmed].
  destruct (TextFacts.get_text_strip_trimmed p) as [E | H]; [|exact H].
  rewrite E in T. discriminate.
Qed.

(** X8.  [fetch_word_data] does not see the case of the word: the word
    and its lower-case form give the same request, the same result and
    the same lines on the error stream. *)
Theorem fetch_ignores_case network html_parser word w :
  fetch_word_data network html_parser (Py.lower word) w
  = fetch_word_data network html_parser word w.
Proof.
  unfold fetch_word_data. now rewrite TextFacts.lower_twice.
Qed.

(** X9.  After a fetch that does not fail, the year and the flag are those
    [extract_year] finds on the parsed page, and the etymology is what
    [extract_etymology] gives for that page and that very year: when the
    page has no usable etymology paragraph the label is the
    classification of the year returned, and "unknown" when no year was
    found. *)
Theorem label_follows_returned_year network html_parser word w r :
  network (requests_sent w)
    ("https://www.merriam-webster.com/dictionary/" ++ Py.lower word)%string 10 = inr r ->
  ~ 400 <= status_code r < 600 ->
  exists year is_accurate,
    value (extract_year (html_parser (text r)) (Py.lower word) w) = inr (year, is_accurate) /\
    value (fetch_word_data network html_parser word w)
    = inr (year, extract_etymology (html_parser (text r)) year, is_accurate) /\
    (falls_back (html_parser (text r)) ->
     extract_etymology (html_parser (text r)) year = classify_by_year year /\
     (year = -1 -> extract_etymology (html_parser (text r)) year = "unknown")).
Proof.
  intros Hn Hs.
  destruct (YearResults.extract_year_returns (html_parser (text r)) (Py.lower word) w)
    as (year & acc & msgs & E & _).
  exists year, acc. split; [now rewrite E|]. split.
  - unfold fetch_word_data, bind, try_except, requests_get, raise_for_status, raise, ret.
    rewrite Hn. cbn [fst snd].
    assert (S : (400 <=? status_code r) && (status_code r <? 600) = false).
    { apply not_true_is_false. intros H. apply andb_true_iff in H. destruct H as [H1 H2].
      apply Z.leb_le in H1. apply Z.ltb_lt in H2. lia. }
    rewrite S. cbn [fst snd text].
    match goal with
    | |- context [extract_year ?s ?wd ?w0] =>
        rewrite (WorldFacts.extract_year_any_world s wd w0)
    end.
    rewrite (WorldFacts.extract_year_any_world _ _ w) in E.
    injection E as E _. unfold value in *. rewrite E. reflexivity.
  - intros F. rewrite EtymologyFacts.extract_etymology_cases.
    assert (C : match etymology_paragraph (html_parser (text r)) with
                | Some p => if Py.truthy (normalized_text p) then normalized_text p
                            else classify_by_year year
                | None => classify_by_year year
                end = classify_by_year year).
    { destruct F as [F | [F | (p & F & T)]].
      - unfold etymology_paragraph. now rewrite F.
      - now rewrite F.
      - rewrite F, T. reflexivity. }
    rewrite C. split; [reflexivity|]. intros ->. reflexivity.
Qed.

(** A page for "Sonnet" with the text "14th century" and an empty
    etymology paragraph: (1300, "unknown", False). *)
Lemma label_follows_returned_year_witness :
  exists year is_accurate,
    value (extract_year (page "14th century" ["et"] []) "sonnet" empty_world)
    = inr (year, is_accurate) /\
    value (fetch_word_data (fun _ _ _ => inr (Response 200 "<html>"))
             (fun _ => page "14th century" ["et"] []) "Sonnet" empty_world)
    = inr (year, extract_etymology (page "14th century" ["et"] []) year, is_accurate) /\
    (falls_back (page "14th century" ["et"] []) ->
     extract_etymology (page "14th century" ["et"] []) year = classify_by_year year /\
     (year = -1 -> extract_etymology (page "14th century" ["et"] []) year = "unknown")).
Proof.
  apply (@label_follows_returned_year
           (fun _ _ _ => inr (Response 200 "<html>"))
           (fun _ => page "14th century" ["et"] []) "Sonnet" empty_world
           (Response 200 "<html>")).
  - reflexivity.
  - simpl. lia.
Defined.

(** X10.  Every result of [extract_year] other than an exact year is
    reported on the error stream, by exactly one line: an exact year
    prints nothing; the year -1 prints "No year found"; a year derived
    from a century prints the century and the year, with
    [year = (century - 1) * 100].  Nothing else in the world changes. *)
Theorem extract_year_reports soup word w :
  exists year is_accurate msgs,
    extract_year soup word w = (inr (year, is_accurate), with_stderr w msgs) /\
    (is_accurate = true -> msgs = []) /\
    (year = -1 -> msgs = [No_year_found word]) /\
    (is_accurate = false -> year <> -1 ->
     exists century, msgs = [Found_century word century year] /\
                     year = (century - 1) * 100).
Proof.
  pose proof (YearFacts.extract_year_cases soup word w) as H.
  destruct (first_known_text soup) as [text|].
  - destruct H as [(pre & ds & post & Hs & _ & E)
                  | [(_ & pre & ds & Hm & _ & E) | (_ & _ & E)]].
    + exists (Py.digits_value ds), true, []. rewrite YearResults.with_stderr_nil.
      split; [exact E|]. destruct Hs as (_ & _ & D & _).
      pose proof (DigitFacts.digits_value_range D).
      split; [reflexivity|]. split; [intros; lia | intros; discriminate].
    + eexists _, false, _. split; [exact E|].
      split; [intros; discriminate|]. split; [intros; lia|].
      intros _ _. eexists. split; reflexivity.
    + eexists _, false, _. split; [exact E|].
      split; [intros; discriminate|]. split; [reflexivity|]. intros _ N. congruence.
  - eexists _, false, _. split; [exact H|].
    split; [intros; discriminate|]. split; [reflexivity|]. intros _ N. congruence.
Qed.

(** X11.  The years [extract_year] can return: never above 9999, never
    below -100; a negative year is never marked accurate and is either
    the sentinel -1 or -100, the start year computed for a "0th
    century". *)
Theorem extract_year_bounds soup word w :
  exists year is_accurate,
    value (extract_year soup word w) = inr (year, is_accurate) /\
    -100 <= year <= 9999 /\
    (year < 0 -> is_accurate = false /\ (year = -1 \/ year = -100)).
Proof.
  destruct (YearResults.extract_year_returns soup word w)
    as (year & acc & msgs & E & R).
  exists year, acc. rewrite E. split; [reflexivity|].
  destruct R as [[-> R] | [[-> ->] | [-> (c & R & ->)]]]; split; try lia; intros;
    split; try reflexivity; try lia.
Qed.


(** X12.  What the flag and the year say about the page.  [extract_year]
    marks a year accurate exactly when the first-known-use paragraph holds
    a standalone run of 3 or 4 digits; it returns an inexact year other
    than -1 exactly when the paragraph holds no such run but a century
    phrase between word boundaries. *)
Theorem flag_tells_the_notation soup word w :
  ((exists year, value (extract_year soup word w) = inr (year, true)) <->
   (exists text pre ds post,
       first_known_text soup = Some text /\
       standalone_year (Py.chars text) pre ds post)) /\
  ((exists year, year <> -1 /\ value (extract_year soup word w) = inr (year, false)) <->
   (exists text pre ds,
       first_known_text soup = Some text /\
       no_standalone_year (Py.chars text) /\
       century_match (Py.chars text) pre ds)).
Proof.
  pose proof (YearFacts.extract_year_cases soup word w) as H.
  destruct (first_known_text soup) as [text|].
  - destruct H as [(pre & ds & post & Hs & _ & E)
                  | [(Hno & pre & ds & Hm & _ & E) | (Hno & Hnone & E)]];
      rewrite E; unfold value; cbn [fst]; split; split.
    + intros _. now exists text, pre, ds, post.
    + intros _. eexists. reflexivity.
    + intros (year & _ & [=]).
    + intros (text' & pre' & ds' & [= <-] & Hno & _). destruct (Hno _ _ _ Hs).
    + intros (year & [=]).
    + intros (text' & pre' & ds' & post' & [= <-] & Hs). destruct (Hno _ _ _ Hs).
    + intros _. now exists text, pre, ds.
    + intros _. eexists. split; [|reflexivity]. lia.
    + intros (year & [=]).
    + intros (text' & pre' & ds' & post' & [= <-] & Hs). destruct (Hno _ _ _ Hs).
    + intros (year & N & [= <-]). congruence.
    + intros (text' & pre' & ds' & [= <-] & _ & Hm). destruct (Hnone _ _ Hm).
  - rewrite H. unfold value. cbn [fst]. split; split.
    + intros (year & [=]).
    + intros (text' & pre' & ds' & post' & [=] & _).
    + intros (year & N & [= <-]). congruence.
    + intros (text' & pre' & ds' & [=] & _).
Qed.


(* ===================================================================== *)
(** ** The fall-back of the etymology *)
(* ===================================================================== *)

Module StripFacts.

Lemma str_nil l : Py.str l = "" <-> l = [].
Proof.
  split; [|intros ->; reflexivity].
  intros H. apply (f_equal Py.chars) in H. now rewrite TextFacts.chars_str in H.
Qed.

(** [lstrip] cuts off a run of whitespace. *)
Lemma lstrip_split s :
  exists p, s = p ++ Py.lstrip_chars s /\ forallb Py.isspace p = true.
Proof.
  induction s as [|c s IH]; simpl.
  - now exists [].
  - destruct (Py.isspace c) eqn:E.
    + destruct IH as (p & Es & Hp). exists (c :: p). simpl. rewrite E, Hp.
      split; [now rewrite <- Es | reflexivity].
    + now exists [].
Qed.

Lemma lstrip_nil s : Py.lstrip_chars s = [] <-> forallb Py.isspace s = true.
Proof.
  induction s as [|c s IH]; simpl; [tauto|].
  destruct (Py.isspace c); simpl; [exact IH|]. split; discriminate.
Qed.

Lemma forallb_rev (f : ascii -> bool) l : forallb f (rev l) = forallb f l.
Proof.
  induction l as [|x l IH]; [reflexivity|]. simpl.
  rewrite forallb_app, IH. simpl. rewrite andb_true_r. apply andb_comm.
Qed.

(** [strip] cuts off a run of whitespace at each end. *)
Lemma strip_chars_split s :
  exists l r,
    s = l ++ Py.strip_chars s ++ r /\
    forallb Py.isspace l = true /\ forallb Py.isspace r = true.
Proof.
  unfold Py.strip_chars.
  destruct (lstrip_split s) as (l & Es & Hl).
  destruct (lstrip_split (rev (Py.lstrip_chars s))) as (q & Eq & Hq).
  exists l, (rev q). split; [|split; [exact Hl | now rewrite forallb_rev]].
  rewrite <- rev_app_distr, <- Eq, rev_involutive. exact Es.
Qed.

(** A text strips to nothing exactly when it is whitespace only. *)
Lemma strip_empty s : Py.strip s = "" <-> forallb Py.isspace (Py.chars s) = true.
Proof.
  unfold Py.strip. rewrite str_nil.
  destruct (strip_chars_split (Py.chars s)) as (l & r & E & Hl & Hr). split.
  - intros H. rewrite H in E. rewrite E, forallb_app. simpl. now rewrite Hl, Hr.
  - intros H. unfold Py.strip_chars.
    assert (U : Py.lstrip_chars (Py.chars s) = []) by now apply lstrip_nil.
    rewrite U. reflexivity.
Qed.

Lemma strip_stripped s : stripped s (Py.strip s).
Proof.
  destruct (strip_chars_split (Py.chars s)) as (l & r & E & Hl & Hr).
  exists l, r. unfold Py.strip at 1. rewrite TextFacts.chars_str.
  repeat split; try assumption. apply TextFacts.strip_trimmed.
Qed.

(** The stripped text of a paragraph is empty exactly when every string
    below the paragraph is whitespace only. *)
Lemma normalized_text_empty p : normalized_text p = "" <-> is_blank p = true.
Proof.
  unfold normalized_text, Bs4.get_text_strip, is_blank.
  set (strs := Bs4.strings p).
  assert (F : Forall trimmed (filter Py.truthy (map Py.strip strs))).
  { apply Forall_forall. intros x Hx. apply filter_In in Hx. destruct Hx as [Hin T].
    apply in_map_iff in Hin. destruct Hin as (s & <- & _).
    destruct (TextFacts.strip_trimmed s) as [E | H]; [|exact H].
    rewrite E in T. discriminate. }
  split.
  - intros H. apply forallb_forall. intros s Hs. apply strip_empty.
    destruct (Py.truthy (Py.strip s)) eqn:T.
    + exfalso.
      assert (Hin : In (Py.strip s) (filter Py.truthy (map Py.strip strs))).
      { apply filter_In. split; [now apply in_map | exact T]. }
      destruct (filter Py.truthy (map Py.strip strs)) as [|t l] eqn:Ef; [contradiction|].
      assert (Tr : trimmed (Py.join " " (t :: l)))
        by (apply TextFacts.join_trimmed; [discriminate | exact F]).
      rewrite H in Tr. destruct Tr as [Tr _]. exact Tr.
    + now apply EtymologyFacts.truthy_false.
  - intros H.
    assert (E : filter Py.truthy (map Py.strip strs) = []).
    { clear F. induction strs as [|s l IH]; [reflexivity|].
      simpl in H. apply andb_true_iff in H. destruct H as [Hs Hl].
      simpl. apply strip_empty in Hs. rewrite Hs. simpl. now apply IH. }
    now rewrite E.
Qed.

Lemma strings_stripped strs : Forall2 stripped strs (map Py.strip strs).
Proof.
  induction strs as [|s l IH]; simpl; constructor; [apply strip_stripped | exact IH].
Qed.

End StripFacts.

(** C4, as stated, fails: year by year, the result can be the
    classification of the year outside the three fall-back cases, when
    the text of the paragraph spells the label.  With the paragraph text
    "unknown" and the year -1, the region and the paragraph are there and
    the text is not empty, yet the result is [classify_by_year(-1)]. *)
Lemma paragraph_spelling_a_label :
  ~ classified_exactly_on_fall_back
      (page "1590" ["et"] [Bs4.NavigableString "unknown"]) (-1).
Proof.
  intros [H _]. specialize (H eq_refl).
  destruct H as [H | [H | (p & H & T)]]; try discriminate.
  injection H as <-. discriminate.
Qed.

(** C4, amended.  [extract_etymology] returns [classify_by_year(year)] in
    the three fall-back cases -- no etymology region, no etymology
    paragraph in it, or a paragraph whose stripped text is empty, which is
    when every string below it is whitespace only.  In all other cases it
    returns, whatever the year, the non-empty stripped text of the
    paragraph: its strings, each without the whitespace at its ends, the
    empty ones left out, joined by single spaces -- also when that text
    spells a label.  The fall-back cases are exactly those in which the
    result is the classification of the year for every year. *)
Theorem etymology_falls_back_on_year soup :
  (falls_back soup ->
   forall year, extract_etymology soup year = classify_by_year year) /\
  (~ falls_back soup ->
   exists p, etymology_paragraph soup = Some p /\
             normalized_text p <> "" /\
             forall year, extract_etymology soup year = normalized_text p) /\
  ((forall year, extract_etymology soup year = classify_by_year year) <->
   falls_back soup) /\
  (forall p,
      (normalized_text p = "" <-> is_blank p = true) /\
      exists pieces,
        Forall2 stripped (Bs4.strings p) pieces /\
        normalized_text p = Py.join " " (filter Py.truthy pieces)).
Proof.
  assert (Hcases : falls_back soup \/
            exists p, etymology_paragraph soup = Some p /\ normalized_text p <> "").
  { unfold falls_back. destruct (etymology_paragraph soup) as [p|] eqn:Ep; [|auto].
    destruct (Py.truthy (normalized_text p)) eqn:T.
    - right. exists p. split; [reflexivity|]. intros E. rewrite E in T. discriminate.
    - left. right. right. exists p. split; [reflexivity|].
      now apply EtymologyFacts.truthy_false. }
  assert (Hfall : falls_back soup ->
            forall year, extract_etymology soup year = classify_by_year year).
  { intros F year. rewrite EtymologyFacts.extract_etymology_cases.
    destruct F as [F | [F | (p & F & T)]].
    - unfold etymology_paragraph. now rewrite F.
    - now rewrite F.
    - rewrite F, T. reflexivity. }
  assert (Htext : forall p, etymology_paragraph soup = Some p -> normalized_text p <> "" ->
            forall year, extract_etymology soup year = normalized_text p).
  { intros p Ep T year. rewrite EtymologyFacts.extract_etymology_cases, Ep.
    destruct (Py.truthy (normalized_text p)) eqn:X; [reflexivity|].
    apply EtymologyFacts.truthy_false in X. contradiction. }
  split; [assumption|]. split; [|split].
  - intros N. destruct Hcases as [F | (p & Ep & T)]; [contradiction|].
    exists p. auto.
  - split; [|assumption].
    intros H. destruct Hcases as [F | (p & Ep & T)]; [assumption|exfalso].
    pose proof (H 1900) as H1. pose proof (H 0) as H0.
    rewrite (Htext p Ep T) in H1, H0. rewrite H1 in H0. discriminate.
  - intros p. split; [apply StripFacts.normalized_text_empty|].
    exists (map Py.strip (Bs4.strings p)). split; [apply StripFacts.strings_stripped|].
    reflexivity.
Qed.

(** Three pages in the year 1590: a paragraph of whitespace falls back on
    the year; a paragraph with text gives its text, stripped and joined;
    so does a paragraph whose text spells a label. *)
Lemma etymology_falls_back_on_year_witness :
  extract_etymology
    (page "1590" ["et"] [Bs4.NavigableString "  "; Bs4.Tag "em" None []]) 1590
  = "early modern english" /\
  extract_etymology
    (page "1590" ["et"]
       [Bs4.NavigableString " Middle English, "; Bs4.Tag "em" None [Bs4.NavigableString "from"];
        Bs4.NavigableString " Old  French "]) 1590
  = "Middle English, from Old  French" /\
  extract_etymology (page "1590" ["et"] [Bs4.NavigableString "unknown"]) 1590
  = "unknown".
Proof.
  split; [|split].
  - apply (proj1 (etymology_falls_back_on_year
                    (page "1590" ["et"] [Bs4.NavigableString "  "; Bs4.Tag "em" None []]))).
    right. right. eexists. split; reflexivity.
  - destruct (proj1 (proj2 (etymology_falls_back_on_year
                (page "1590" ["et"]
                   [Bs4.NavigableString " Middle English, ";
                    Bs4.Tag "em" None [Bs4.NavigableString "from"];
                    Bs4.NavigableString " Old  French "]))))
      as (p & Ep & _ & E).
    + intros [H | [H | (p & H & T)]]; try discriminate.
      injection H as <-. discriminate.
    + rewrite E. injection Ep as <-. reflexivity.
  - destruct (proj1 (proj2 (etymology_falls_back_on_year
                (page "1590" ["et"] [Bs4.NavigableString "unknown"]))))
      as (p & Ep & _ & E).
    + intros [H | [H | (p & H & T)]]; try discriminate.
      injection H as <-. discriminate.
    + rewrite E. injection Ep as <-. reflexivity.
Defined.
